(** * Security mediation core of the directory-analytics dashboard

    A shallow embedding of the access-policy engine ([data_security.py]),
    the audit sink ([audit_logger.py]), the local and the federated session
    authenticators ([auth.py], [rh_sso_auth.py]) and the export path of
    [secure_dashboard.py], with the properties the specification states
    about them.

    Conventions of the embedding.
    - A Python [str] is a [string]; one [ascii] stands for one code point
      below 256, so [len], indexing and slicing count characters.
    - A pandas [DataFrame] is an object in a store: a reference is an
      index into the list of frames of the world, [df.copy()] allocates,
      column assignment updates the referenced frame in place.
    - Streamlit's [st.session_state] is a finite map from keys to values;
      what the script shows on the page ([st.error], [st.success],
      [st.download_button]) is appended to a list of page events; what the
      logging handler writes to [logs/audit.log] is appended to a list of
      audit records.
    - A message shown on the page is recorded by its text, without the
      pictograph that leads it in the source.
    - A Python exception ends the computation with [Raise]; the state
      reached so far is kept, as in Python. *)

From Stdlib Require Import ZArith Ascii String List Bool Lia.
From stdpp Require Import base option list gmap strings.

Local Open Scope Z_scope.

(* ===================================================================== *)
(** * Python strings *)
(* ===================================================================== *)

Module py.

(** [len(s)] *)
Definition len (s : string) : nat := String.length s.

(** ['c' * n] *)
Fixpoint repeat_char (c : ascii) (n : nat) : string :=
  match n with
  | O => EmptyString
  | S k => String c (repeat_char c k)
  end.

(** [c in s] for a one-character [c] *)
Fixpoint contains_char (c : ascii) (s : string) : bool :=
  match s with
  | EmptyString => false
  | String a r => if Ascii.eqb a c then true else contains_char c r
  end.

(** [s.split(c, 1)]: at most one cut, at the first [c] *)
Fixpoint split1 (c : ascii) (s : string) : list string :=
  match s with
  | EmptyString => [EmptyString]
  | String a r =>
      if Ascii.eqb a c then [EmptyString; r]
      else match split1 c r with
           | u :: rest => String a u :: rest
           | [] => []
           end
  end.

(** [s.split(c)[0]]: the text before the first [c], all of [s] when
    there is none *)
Definition split_head (c : ascii) (s : string) : string :=
  match split1 c s with
  | u :: _ => u
  | [] => EmptyString
  end.

(** [s[0]] and [s[-1]] of a non-empty string *)
Definition first_char (s : string) : option ascii :=
  match s with
  | EmptyString => None
  | String a _ => Some a
  end.

Fixpoint last_char (s : string) : option ascii :=
  match s with
  | EmptyString => None
  | String a EmptyString => Some a
  | String _ r => last_char r
  end.

(** [s[:n]] *)
Fixpoint take (n : nat) (s : string) : string :=
  match n, s with
  | S k, String a r => String a (take k r)
  | _, _ => EmptyString
  end.

(** [s[n:]] *)
Fixpoint drop (n : nat) (s : string) : string :=
  match n, s with
  | S k, String _ r => drop k r
  | _, _ => s
  end.

(** [s[-n:]] for [n > 0] *)
Definition last_n (n : nat) (s : string) : string :=
  drop (String.length s - n) s.

(** [s.lower()] on code points below 256: the letters A-Z and the
    accented capitals 192-222 (but the sign 215) move up by 32. *)
Definition lower_char (a : ascii) : ascii :=
  let n := nat_of_ascii a in
  if ((65 <=? n)%nat && (n <=? 90)%nat)
     || ((192 <=? n)%nat && (n <=? 222)%nat && negb (n =? 215)%nat)
  then ascii_of_nat (n + 32) else a.

Fixpoint lower (s : string) : string :=
  match s with
  | EmptyString => EmptyString
  | String a r => String (lower_char a) (lower r)
  end.

(** [s.upper()]: the letters a-z and the accented small letters 224-254
    (but the sign 247) move down by 32. The three characters below 256
    whose capital lies elsewhere stay as they are, which is enough for
    comparing the result with unaccented text. *)
Definition upper_char (a : ascii) : ascii :=
  let n := nat_of_ascii a in
  if ((97 <=? n)%nat && (n <=? 122)%nat)
     || ((224 <=? n)%nat && (n <=? 254)%nat && negb (n =? 247)%nat)
  then ascii_of_nat (n - 32) else a.

Fixpoint upper (s : string) : string :=
  match s with
  | EmptyString => EmptyString
  | String a r => String (upper_char a) (upper r)
  end.

(** [s.startswith(p)] *)
Fixpoint startswith (p s : string) : bool :=
  match p, s with
  | EmptyString, _ => true
  | String a p', String b s' => Ascii.eqb a b && startswith p' s'
  | String _ _, EmptyString => false
  end.

(** [p in s] for strings: [p] occurs in [s] as a substring *)
Fixpoint contains (p s : string) : bool :=
  startswith p s
  || match s with
     | EmptyString => false
     | String _ r => contains p r
     end.

(** [re.sub(r'\D', '', s)]: keep the decimal digits *)
Definition is_digit (a : ascii) : bool :=
  let n := nat_of_ascii a in (48 <=? n)%nat && (n <=? 57)%nat.

Fixpoint digits_of (s : string) : string :=
  match s with
  | EmptyString => EmptyString
  | String a r => if is_digit a then String a (digits_of r) else digits_of r
  end.

(** [any(f(x) for x in l)] *)
Definition any {A} (f : A -> bool) (l : list A) : bool := existsb f l.

End py.

(* ===================================================================== *)
(** * Values, exceptions and the world *)
(* ===================================================================== *)

(** A cell of a frame: text, a number, or a missing value ([None]). *)
Inductive Value :=
| VStr (s : string)
| VInt (n : Z)
| VNone.

Global Instance Value_eq_dec : EqDecision Value.
Proof. solve_decision. Defined.

(** Python truth of a cell: [not v] is [negb (truthy v)]. *)
Definition truthy (v : Value) : bool :=
  match v with
  | VStr s => negb (String.eqb s EmptyString)
  | VInt n => negb (n =? 0)%Z
  | VNone => false
  end.

Inductive exn :=
| KeyError (key : string)
| TypeError
| ValueError
| IndexError
| AttributeError
| ExpiredSignatureError
| InvalidTokenError
| RerunException
| StopException.

Inductive Res (A : Type) :=
| Ok (a : A)
| Raise (e : exn).
Arguments Ok {A} a.
Arguments Raise {A} e.

(** ** Session tokens *)

(** The claims of a token; [exp] and [iat] are seconds, [realm_roles] is
    the [roles] list under [realm_access]. *)
Record Claims := mkClaims {
  claim_email : option string;
  claim_exp : option Z;
  claim_iat : option Z;
  claim_nonce : option string;
  claim_sub : option string;
  claim_realm_roles : option (list string)
}.

Global Instance Claims_eq_dec : EqDecision Claims.
Proof. solve_decision. Defined.

(** The empty claims set. *)
Definition no_claims : Claims := mkClaims None None None None None None.

(** An encoded token: text that is no token at all, or a header naming
    the algorithm, the claims and a signature. *)
Inductive Jwt :=
| Garbage (text : string)
| Jws (alg : string) (payload : Claims) (signature : Z).

Global Instance Jwt_eq_dec : EqDecision Jwt.
Proof. solve_decision. Defined.

(** ** Python values held in dictionaries *)

Inductive PyVal :=
| PStr (s : string)
| PInt (n : Z)
| PBool (b : bool)
| PList (l : list string)
| PJwt (t : Jwt)
| PNone.

Global Instance PyVal_eq_dec : EqDecision PyVal.
Proof. solve_decision. Defined.

(** A Python [dict] with string keys, as the session, the credential
    table and the identity provider's answers hold them. *)
Abbreviation Dict := (gmap string PyVal).

(** [d.get(k, default)] *)
Definition dict_get (d : Dict) (k : string) (default : PyVal) : PyVal :=
  match d !! k with
  | Some v => v
  | None => default
  end.

(** [d[k]] *)
Definition dict_item (d : Dict) (k : string) : Res PyVal :=
  match d !! k with
  | Some v => Ok v
  | None => Raise (KeyError k)
  end.

(** [s in v]: membership in a list, substring of a text, a [TypeError]
    for a value that is no container. *)
Definition py_in (s : string) (v : PyVal) : Res bool :=
  match v with
  | PList l => Ok (bool_decide (s ∈ l))
  | PStr t => Ok (py.contains s t)
  | _ => Raise TypeError
  end.

(** ** Frames *)

Record Row := mkRow { row_label : nat; row_cells : list Value }.

Record DataFrame := mkFrame {
  columns : list string;
  rows : list Row;
  attrs : list (string * list (string * PyVal))
}.

Global Instance Row_eq_dec : EqDecision Row.
Proof. solve_decision. Defined.

Global Instance DataFrame_eq_dec : EqDecision DataFrame.
Proof. solve_decision. Defined.

(** ** What the page shows and what the audit file receives *)

Inductive PageEvent :=
| StError (msg : string)
| StSuccess (msg : string)
| StDownloadButton (label data file_name mime : string).

Inductive Severity := INFO | WARNING | ERROR | CRITICAL.

(** Rank of a level, as [logging] orders them. *)
Definition severity_rank (s : Severity) : nat :=
  match s with
  | INFO => 20
  | WARNING => 30
  | ERROR => 40
  | CRITICAL => 50
  end.

(** ** The session store *)

Inductive SVal :=
| SPy (v : PyVal)
| SDict (d : Dict).

Global Instance SVal_eq_dec : EqDecision SVal.
Proof. solve_decision. Defined.

(** The [user_context] entry of an audit record. *)
Record UserContext := mkContext {
  user_email : PyVal;
  user_name : PyVal;
  user_role : PyVal;
  session_id : SVal;
  timestamp : Z;
  user_agent : string;
  ip_address : string
}.

(** The dictionary serialised by [log_event]. *)
Record AuditRecord := mkAudit {
  event_type : string;
  user_context : UserContext;
  details : list (string * PyVal);
  severity : string
}.

(** One line of [logs/audit.log]: the level of the [logging] call and
    the record. *)
Record LogLine := mkLine { levelname : Severity; message : AuditRecord }.

(** ** The world *)

Record World := mkWorld {
  frames : list DataFrame;
  session_state : gmap string SVal;
  page : list PageEvent;
  audit_log : list LogLine;
  utcnow : Z
}.

Definition M (A : Type) : Type := World -> Res A * World.

Definition ret {A} (a : A) : M A := fun w => (Ok a, w).

Definition raise {A} (e : exn) : M A := fun w => (Raise e, w).

Definition bind {A B} (m : M A) (k : A -> M B) : M B :=
  fun w =>
    match m w with
    | (Ok a, w') => k a w'
    | (Raise e, w') => (Raise e, w')
    end.

Declare Scope py_scope.
Delimit Scope py_scope with py.
Notation "x <- c ;; k" := (bind c (fun x => k))
  (at level 100, c at next level, k at level 200, right associativity) : py_scope.
Notation "c ;;; k" := (bind c (fun _ => k))
  (at level 100, k at level 200, right associativity) : py_scope.
Local Open Scope py_scope.

(** [for x in l: body x] *)
Fixpoint for_each {A} (l : list A) (body : A -> M unit) : M unit :=
  match l with
  | [] => ret tt
  | x :: r => body x ;;; for_each r body
  end.

Definition get_world : M World := fun w => (Ok w, w).
Definition put_world (w : World) : M unit := fun _ => (Ok tt, w).

(** ** The frame store *)

Definition empty_frame : DataFrame := mkFrame [] [] [].

(** The frame a reference denotes. *)
Definition frame_at (w : World) (df : nat) : DataFrame :=
  default empty_frame (frames w !! df).

Definition read_frame (df : nat) : M DataFrame :=
  fun w => (Ok (frame_at w df), w).

(** A new frame object; its reference is the next free index. *)
Definition new_frame (f : DataFrame) : M nat :=
  fun w =>
    (Ok (length (frames w)),
     mkWorld (frames w ++ [f]) (session_state w) (page w) (audit_log w)
             (utcnow w)).

(** In-place update of the referenced object. *)
Definition write_frame (df : nat) (f : DataFrame) : M unit :=
  fun w =>
    (Ok tt,
     mkWorld (<[df := f]> (frames w)) (session_state w) (page w)
             (audit_log w) (utcnow w)).

(** [df.copy()] *)
Definition frame_copy (df : nat) : M nat :=
  f <- read_frame df ;; new_frame f.

(** ** Columns and rows of a frame value *)

(** Position of the first column called [name]. *)
Fixpoint column_index (name : string) (cols : list string) : option nat :=
  match cols with
  | [] => None
  | c :: r =>
      if String.eqb c name then Some O
      else option_map S (column_index name r)
  end.

(** [name in df.columns] *)
Definition has_column (name : string) (f : DataFrame) : bool :=
  match column_index name (columns f) with
  | Some _ => true
  | None => false
  end.

(** The cell of a row at a position; a short row reads as missing. *)
Definition cell_at (i : nat) (r : Row) : Value := nth i (row_cells r) VNone.

(** [df[name]]: the cells of a column, top to bottom. *)
Definition get_column (name : string) (f : DataFrame) : Res (list Value) :=
  match column_index name (columns f) with
  | Some i => Ok (map (cell_at i) (rows f))
  | None => Raise (KeyError name)
  end.

Definition set_cell (i : nat) (v : Value) (r : Row) : Row :=
  mkRow (row_label r) (<[i := v]> (row_cells r)).

Fixpoint set_cells (i : nat) (vals : list Value) (rs : list Row) : list Row :=
  match rs, vals with
  | r :: rs', v :: vals' => set_cell i v r :: set_cells i vals' rs'
  | _, _ => rs
  end.

(** [df[name] = vals] for a column that exists. *)
Definition set_column (name : string) (vals : list Value) (f : DataFrame)
  : DataFrame :=
  match column_index name (columns f) with
  | Some i => mkFrame (columns f) (set_cells i vals (rows f)) (attrs f)
  | None => f
  end.

(** [series.apply(g)]: [g] on every cell, stopping at the first
    exception. *)
Fixpoint series_apply (g : Value -> Res Value) (l : list Value)
  : Res (list Value) :=
  match l with
  | [] => Ok []
  | v :: r =>
      match g v with
      | Raise e => Raise e
      | Ok v' =>
          match series_apply g r with
          | Raise e => Raise e
          | Ok r' => Ok (v' :: r')
          end
      end
  end.

(** [df[mask]]: the rows whose mask entry is true, labels kept. *)
Fixpoint select_rows (mask : list bool) (rs : list Row) : list Row :=
  match rs, mask with
  | r :: rs', b :: mask' =>
      if b then r :: select_rows mask' rs' else select_rows mask' rs'
  | _, _ => []
  end.

(** Lifting a pure fallible result into the monad. *)
Definition lift {A} (r : Res A) : M A := fun w => (r, w).

(** ** Ordering of cells, as [groupby] and [mode] sort them: numbers
    before text, text by code point; missing cells never take part. *)
Definition value_leb (a b : Value) : bool :=
  match a, b with
  | VInt x, VInt y => (x <=? y)%Z
  | VInt _, _ => true
  | VStr _, VInt _ => false
  | VStr x, VStr y => String.leb x y
  | VStr _, VNone => true
  | VNone, VNone => true
  | VNone, _ => false
  end.

Fixpoint insert_sorted (v : Value) (l : list Value) : list Value :=
  match l with
  | [] => [v]
  | x :: r => if value_leb v x then v :: l else x :: insert_sorted v r
  end.

Definition sort_values (l : list Value) : list Value :=
  foldr insert_sorted [] l.

(** The distinct non-missing cells of a series, sorted. *)
Definition distinct_sorted (l : list Value) : list Value :=
  sort_values (remove_dups (filter (fun v => v <> VNone) l)).

(** Number of cells equal to [v]. *)
Definition count_of (v : Value) (l : list Value) : nat :=
  length (filter (fun x => x = v) l).

(** [series.count()]: the cells that are not missing. *)
Definition series_count (l : list Value) : nat :=
  length (filter (fun v => v <> VNone) l).

(** [series.mode()]: the most frequent non-missing cells, sorted. *)
Definition series_mode (l : list Value) : list Value :=
  let keys := distinct_sorted l in
  let top := foldr Nat.max O (map (fun v => count_of v l) keys) in
  filter (fun v => count_of v l = top) keys.

(* ===================================================================== *)
(** * [data_security.py]: the access-policy engine *)
(* ===================================================================== *)

Module data_security.

(** [self.sensitive_fields] *)
Definition sensitive_fields_email : list string := ["email"; "mail"].
Definition sensitive_fields_phone : list string :=
  ["phone"; "telephone"; "mobile"].
Definition sensitive_fields_employee_id : list string :=
  ["employee_id"; "employeeNumber"; "workerId"].

(** [self.access_levels] *)
Definition access_levels : list (string * list string) :=
  [("admin", ["all"]);
   ("manager", ["team_data"; "reporting_structure"; "basic_info"]);
   ("viewer", ["aggregated_data"; "public_info"]);
   ("auditor", ["audit_logs"; "access_reports"])].

Definition mask_email (email : Value) : Res Value :=
  if negb (truthy email) then Ok email
  else
    match email with
    | VStr s =>
        if negb (py.contains_char "@" s) then Ok email
        else
          match py.split1 "@" s with
          | [username; domain] =>
              if (py.len username <=? 2)%nat then
                Ok (VStr (py.repeat_char "*" (py.len username)
                          +:+ "@" +:+ domain))
              else
                match py.first_char username, py.last_char username with
                | Some a, Some z =>
                    Ok (VStr (String a
                                (py.repeat_char "*" (py.len username - 2)
                                 +:+ String z EmptyString)
                              +:+ "@" +:+ domain))
                | _, _ => Raise IndexError
                end
          | _ => Raise ValueError
          end
    | _ => Raise TypeError
    end.

Definition mask_phone (phone : Value) : Res Value :=
  if negb (truthy phone) then Ok phone
  else
    match phone with
    | VStr s =>
        let digits := py.digits_of s in
        if (10 <=? py.len digits)%nat then
          Ok (VStr ("***-***-" +:+ py.last_n 4 digits))
        else Ok (VStr "***-****")
    | _ => Raise TypeError
    end.

Definition mask_employee_id (emp_id : Value) : Res Value :=
  if negb (truthy emp_id) then Ok emp_id
  else
    match emp_id with
    | VStr s =>
        if (py.len s <=? 3)%nat then
          Ok (VStr (py.repeat_char "*" (py.len s)))
        else
          match py.last_char s with
          | Some z =>
              Ok (VStr (py.take 2 s
                        +:+ py.repeat_char "*" (py.len s - 3)
                        +:+ String z EmptyString))
          | None => Raise IndexError
          end
    | _ => Raise TypeError
    end.

(** [any(field in column.lower() for field in fields)] *)
Definition column_matches (fields : list string) (column : string) : bool :=
  py.any (fun field => py.contains field (py.lower column)) fields.

(** [df[column] = df[column].apply(g)] on the referenced frame. *)
Definition assign_apply (df : nat) (column : string)
  (g : Value -> Res Value) : M unit :=
  f <- read_frame df ;;
  cells <- lift (get_column column f) ;;
  masked <- lift (series_apply g cells) ;;
  f' <- read_frame df ;;
  write_frame df (set_column column masked f').

Definition apply_data_masking (df : nat) (user_role : string) : M nat :=
  if String.eqb user_role "admin" then ret df
  else
    masked_df <- frame_copy df ;;
    (if String.eqb user_role "viewer" || String.eqb user_role "auditor"
     then
       f <- read_frame masked_df ;;
       for_each (columns f) (fun column =>
         if column_matches sensitive_fields_email column then
           assign_apply masked_df column mask_email
         else if column_matches sensitive_fields_phone column then
           assign_apply masked_df column mask_phone
         else if column_matches sensitive_fields_employee_id column then
           assign_apply masked_df column mask_employee_id
         else ret tt)
     else if String.eqb user_role "manager" then
       f <- read_frame masked_df ;;
       for_each (columns f) (fun column =>
         if column_matches sensitive_fields_phone column then
           assign_apply masked_df column mask_phone
         else ret tt)
     else ret tt) ;;;
    ret masked_df.

(** [user_email.split('@')[0] if '@' in user_email else ''] for the
    [email] entry of the context. *)
Definition user_uid_of (user_context : Dict) : Res string :=
  match dict_get user_context "email" (PStr EmptyString) with
  | PStr user_email =>
      if py.contains_char "@" user_email
      then Ok (py.split_head "@" user_email)
      else Ok EmptyString
  | PList l =>
      if bool_decide ("@" ∈ l) then Raise AttributeError else Ok EmptyString
  | _ => Raise TypeError
  end.

(** [series == text], cell by cell *)
Definition series_eq (s : string) (l : list Value) : list bool :=
  map (fun v => bool_decide (v = VStr s)) l.

(** [series.isin(values)] *)
Definition series_isin (values : list Value) (l : list Value) : list bool :=
  map (fun v => bool_decide (v ∈ values)) l.

(** [a | b] on boolean series *)
Fixpoint series_or (a b : list bool) : list bool :=
  match a, b with
  | x :: a', y :: b' => (x || y) :: series_or a' b'
  | _, _ => []
  end.

(** [df[mask][name].tolist()] *)
Fixpoint select_values (mask : list bool) (l : list Value) : list Value :=
  match l, mask with
  | v :: l', b :: mask' =>
      if b then v :: select_values mask' l' else select_values mask' l'
  | _, _ => []
  end.

(** The seniority lambda of the aggregate:
    [x.mode().iloc[0] if len(x.mode()) > 0 else 'Unknown'] *)
Definition common_seniority (x : list Value) : Value :=
  match series_mode x with
  | m :: _ => m
  | [] => VStr "Unknown"
  end.

(** The cells of column [j] in the rows whose column [i] is [key]. *)
Definition group_cells (i j : nat) (key : Value) (rs : list Row)
  : list Value :=
  map (cell_at j) (filter (fun r => cell_at i r = key) rs).

Fixpoint number_rows (n : nat) (cells : list (list Value)) : list Row :=
  match cells with
  | [] => []
  | c :: r => mkRow n c :: number_rows (S n) r
  end.

(** [df.groupby('department').agg({'uid': 'count',
      'seniority_level': <lambda>}).reset_index()], with the columns
    renamed. *)
Definition department_stats (f : DataFrame) : Res DataFrame :=
  match column_index "department" (columns f) with
  | None => Raise (KeyError "department")
  | Some d =>
      match column_index "uid" (columns f) with
      | None => Raise (KeyError "uid")
      | Some u =>
          match column_index "seniority_level" (columns f) with
          | None => Raise (KeyError "seniority_level")
          | Some s =>
              let keys := distinct_sorted (map (cell_at d) (rows f)) in
              Ok (mkFrame
                    ["Department"; "Team_Size"; "Common_Seniority"]
                    (number_rows O
                       (map (fun key =>
                               [key;
                                VInt (Z.of_nat
                                        (series_count
                                           (group_cells d u key (rows f))));
                                common_seniority
                                  (group_cells d s key (rows f))])
                            keys))
                    [])
          end
      end
  end.

Definition filter_data_by_access_level (df : nat) (user_role : string)
  (user_context : Dict) : M nat :=
  if String.eqb user_role "admin" then ret df
  else
    filtered_df <- frame_copy df ;;
    if String.eqb user_role "manager" then
      user_uid <- lift (user_uid_of user_context) ;;
      f <- read_frame filtered_df ;;
      if has_column "manager" f then
        manager <- lift (get_column "manager" f) ;;
        uid <- lift (get_column "uid" f) ;;
        let team_filter :=
          series_or (series_eq user_uid manager) (series_eq user_uid uid) in
        let direct_reports :=
          select_values (series_eq user_uid manager) uid in
        let team_filter :=
          match direct_reports with
          | [] => team_filter
          | _ :: _ =>
              series_or team_filter (series_isin direct_reports manager)
          end in
        new_frame (mkFrame (columns f) (select_rows team_filter (rows f))
                           (attrs f))
      else ret filtered_df
    else if String.eqb user_role "viewer" then
      f <- read_frame filtered_df ;;
      if (0 <? length (rows f))%nat then
        if has_column "department" f then
          dept_stats <- lift (department_stats f) ;;
          new_frame dept_stats
        else ret filtered_df
      else ret filtered_df
    else ret filtered_df.

(** Keeping the entries of a list whose flag is set. *)
Fixpoint keep_flagged {A} (flags : list bool) (l : list A) : list A :=
  match l, flags with
  | x :: l', b :: flags' =>
      if b then x :: keep_flagged flags' l' else keep_flagged flags' l'
  | _, _ => []
  end.

(** [df.drop(columns=...)] for the columns that match [remove]. *)
Definition drop_columns (remove : string -> bool) (f : DataFrame)
  : DataFrame :=
  let keep := map (fun c => negb (remove c)) (columns f) in
  mkFrame (keep_flagged keep (columns f))
          (map (fun r => mkRow (row_label r)
                               (keep_flagged keep (row_cells r)))
               (rows f))
          (attrs f).

(** [d[k] = v] on an association list. *)
Fixpoint assoc_set {B} (k : string) (v : B) (l : list (string * B))
  : list (string * B) :=
  match l with
  | [] => [(k, v)]
  | (k', v') :: r =>
      if String.eqb k' k then (k, v) :: r else (k', v') :: assoc_set k v r
  end.

Definition internal_fields : list string :=
  ["password"; "hash"; "session"; "token"; "secret"].

Definition sanitize_export_data (df : nat) (export_format : string)
  (user_role : string) : M nat :=
  sanitized_df <- frame_copy df ;;
  f <- read_frame sanitized_df ;;
  let columns_to_remove :=
    filter (fun col => column_matches internal_fields col = true)
           (columns f) in
  sanitized_df <-
    match columns_to_remove with
    | [] => ret sanitized_df
    | _ :: _ => new_frame (drop_columns (column_matches internal_fields) f)
    end ;;
  sanitized_df <- apply_data_masking sanitized_df user_role ;;
  (if String.eqb (py.lower export_format) "csv" then
     w <- get_world ;;
     g <- read_frame sanitized_df ;;
     write_frame sanitized_df
       (mkFrame (columns g) (rows g)
          (assoc_set "export_info"
             [("exported_by", PStr user_role);
              ("export_time", PInt (utcnow w));
              ("data_classification",
               PStr "CONFIDENTIAL - Red Hat Internal")]
             (attrs g)))
   else ret tt) ;;;
  ret sanitized_df.

Definition permission_map : list (string * list string) :=
  [("people_data", ["view_all"; "view_team"]);
   ("org_chart", ["view_all"; "view_team"; "view_reports"]);
   ("analytics", ["view_all"; "view_reports"]);
   ("export", ["export_data"]);
   ("audit_logs", ["view_audit"; "admin"])].

(** [d.get(k, default)] on an association list. *)
Fixpoint assoc_get {B} (k : string) (default : B) (l : list (string * B))
  : B :=
  match l with
  | [] => default
  | (k', v) :: r => if String.eqb k' k then v else assoc_get k default r
  end.

(** [any(perm in user_permissions for perm in required)]: the first
    permission found ends the search, and so does a [TypeError] of the
    membership test. *)
Fixpoint any_permission (required : list string) (user_permissions : PyVal)
  : Res bool :=
  match required with
  | [] => Ok false
  | perm :: r =>
      match py_in perm user_permissions with
      | Raise e => Raise e
      | Ok true => Ok true
      | Ok false => any_permission r user_permissions
      end
  end.

Definition check_data_access_permission (data_type : string)
  (user_role : string) (user_permissions : PyVal) : Res bool :=
  let required_permissions :=
    assoc_get data_type ["view_all"] permission_map in
  any_permission required_permissions user_permissions.

End data_security.

(* ===================================================================== *)
(** * Streamlit: the session store and the page *)
(* ===================================================================== *)

Module st.

(** [st.session_state.get(k)] *)
Definition session_get (k : string) : M (option SVal) :=
  fun w => (Ok (session_state w !! k), w).

(** [st.session_state[k] = v] *)
Definition session_set (k : string) (v : SVal) : M unit :=
  fun w =>
    (Ok tt,
     mkWorld (frames w) (<[k := v]> (session_state w)) (page w)
             (audit_log w) (utcnow w)).

(** [del st.session_state[k]] for a key that is present *)
Definition session_del (k : string) : M unit :=
  fun w =>
    (Ok tt,
     mkWorld (frames w) (delete k (session_state w)) (page w)
             (audit_log w) (utcnow w)).

(** [k in st.session_state] *)
Definition session_has (k : string) : M bool :=
  fun w => (Ok (bool_decide (is_Some (session_state w !! k))), w).

Definition show (e : PageEvent) : M unit :=
  fun w =>
    (Ok tt,
     mkWorld (frames w) (session_state w) (page w ++ [e]) (audit_log w)
             (utcnow w)).

Definition error (msg : string) : M unit := show (StError msg).
Definition success (msg : string) : M unit := show (StSuccess msg).

(** [st.rerun()] and [st.stop()] leave the script through an exception. *)
Definition rerun {A} : M A := raise RerunException.
Definition stop {A} : M A := raise StopException.

(** [st.session_state.get('user', {})], read as a dictionary. *)
Definition session_user : M Dict :=
  u <- session_get "user" ;;
  match u with
  | None => ret ∅
  | Some (SDict d) => ret d
  | Some (SPy _) => raise AttributeError
  end.

End st.

(** The clock. *)
Definition datetime_utcnow : M Z := fun w => (Ok (utcnow w), w).

(* ===================================================================== *)
(** * [audit_logger.py]: the audit sink *)
(* ===================================================================== *)

Module audit_logger.

(** One call of the [logging] logger at a level: the handler appends a
    line to the audit file. *)
Definition emit (level : Severity) (record : AuditRecord) : M unit :=
  fun w =>
    (Ok tt,
     mkWorld (frames w) (session_state w) (page w)
             (audit_log w ++ [mkLine level record]) (utcnow w)).

Definition get_user_context : M UserContext :=
  user <- st.session_user ;;
  sid <- st.session_get "session_id" ;;
  now <- datetime_utcnow ;;
  ret (mkContext
         (dict_get user "email" (PStr "anonymous"))
         (dict_get user "name" (PStr "Unknown"))
         (dict_get user "role" (PStr "none"))
         (default (SPy (PStr "unknown")) sid)
         now
         "Streamlit Dashboard"
         "localhost").

Definition log_event (event_type : string)
  (details : list (string * PyVal)) (level : string) : M unit :=
  context <- get_user_context ;;
  let audit_record := mkAudit event_type context details level in
  if String.eqb (py.upper level) "WARNING" then emit WARNING audit_record
  else if String.eqb (py.upper level) "ERROR" then emit ERROR audit_record
  else if String.eqb (py.upper level) "CRITICAL" then
    emit CRITICAL audit_record
  else emit INFO audit_record.

Definition log_login_attempt (email : string) (success : bool)
  (ip_address : string) : M unit :=
  log_event "LOGIN_ATTEMPT"
    [("email", PStr email); ("success", PBool success);
     ("ip_address", PStr ip_address)]
    (if negb success then "WARNING" else "INFO").

Definition log_data_export (data_type : string) (record_count : nat)
  (export_format : string) : M unit :=
  log_event "DATA_EXPORT"
    [("data_type", PStr data_type);
     ("record_count", PInt (Z.of_nat record_count));
     ("export_format", PStr export_format)]
    "WARNING".

Definition log_security_event (event_description : string)
  (severity : string) : M unit :=
  log_event "SECURITY_EVENT"
    [("description", PStr event_description);
     ("requires_investigation",
      PBool (bool_decide (severity ∈ ["ERROR"; "CRITICAL"])))]
    severity.

End audit_logger.

(* ===================================================================== *)
(** * [auth.py]: the local session authenticator *)
(* ===================================================================== *)

Module auth.

Section DashboardAuth.

(** [DASHBOARD_SECRET_KEY] and [SESSION_TIMEOUT_MINUTES] of the
    environment, and the keyed hash behind the [HS256] signature. *)
Variable secret_key : string.
Variable session_timeout : Z.
Variable hs256 : string -> Claims -> Z.

Definition authorized_users : list (string * Dict) :=
  [("crizzo@redhat.com",
    {[ "name" := PStr "Christine Rizzo";
       "role" := PStr "admin";
       "permissions" := PList ["view_all"; "export_data"; "manage_users"] ]});
   ("demo@redhat.com",
    {[ "name" := PStr "Demo User";
       "role" := PStr "viewer";
       "permissions" := PList ["view_team"; "view_reports"] ]})].

Definition demo_passwords : list (string * string) :=
  [("crizzo@redhat.com", "admin123"); ("demo@redhat.com", "demo123")].

(** [d.get(k)] and [k in d] on a table. *)
Fixpoint table_get {B} (k : string) (l : list (string * B)) : option B :=
  match l with
  | [] => None
  | (k', v) :: r => if String.eqb k' k then Some v else table_get k r
  end.

Definition check_password (email password : string) : bool :=
  match table_get email authorized_users with
  | Some _ => bool_decide (table_get email demo_passwords = Some password)
  | None => false
  end.

(** [jwt.encode(payload, key, algorithm='HS256')] *)
Definition jwt_encode (payload : Claims) (key : string) : Jwt :=
  Jws "HS256" payload (hs256 key payload).

(** [jwt.decode(token, key, algorithms=['HS256'])]: the token must be
    well formed, carry an accepted algorithm and the signature of its
    claims under the key; then [iat], when present, must not lie in the
    future and [exp], when present, must lie in the future. *)
Definition jwt_decode (token : Jwt) (key : string)
  (algorithms : list string) (now : Z) : Res Claims :=
  match token with
  | Garbage _ => Raise InvalidTokenError
  | Jws alg payload signature =>
      if negb (bool_decide (alg ∈ algorithms)) then Raise InvalidTokenError
      else if negb (signature =? hs256 key payload)%Z then
        Raise InvalidTokenError
      else
        match claim_iat payload with
        | Some iat =>
            if (now <? iat)%Z then Raise InvalidTokenError
            else
              match claim_exp payload with
              | Some exp =>
                  if (exp <=? now)%Z then Raise ExpiredSignatureError
                  else Ok payload
              | None => Ok payload
              end
        | None =>
            match claim_exp payload with
            | Some exp =>
                if (exp <=? now)%Z then Raise ExpiredSignatureError
                else Ok payload
            | None => Ok payload
            end
        end
  end.

Definition create_session_token (user_email : string) : M Jwt :=
  now <- datetime_utcnow ;;
  let payload :=
    mkClaims (Some user_email) (Some (now + 60 * session_timeout)%Z)
             (Some now) None None None in
  ret (jwt_encode payload secret_key).

Definition verify_session_token (token : Jwt) : M (option Dict) :=
  now <- datetime_utcnow ;;
  match jwt_decode token secret_key ["HS256"] now with
  | Ok payload =>
      match claim_email payload with
      | Some user_email =>
          match table_get user_email authorized_users with
          | Some user => ret (Some user)
          | None => ret None
          end
      | None => ret None
      end
  | Raise ExpiredSignatureError =>
      st.error "Session expired. Please log in again." ;;;
      ret None
  | Raise InvalidTokenError =>
      st.error "Invalid session. Please log in again." ;;;
      ret None
  | Raise e => raise e
  end.

(** [required_permission in user.get('permissions', [])] *)
Definition check_permission (user : Dict) (required_permission : string)
  : Res bool :=
  py_in required_permission (dict_get user "permissions" (PList [])).

(** The login form, for what the visitor typed and whether the button
    was pressed. Markup without state (headings, the credentials hint,
    the security notice) is not recorded. *)
Definition login_form (email password : string) (submit : bool) : M unit :=
  if submit then
    if check_password email password then
      token <- create_session_token email ;;
      st.session_set "auth_token" (SPy (PJwt token)) ;;;
      match table_get email authorized_users with
      | Some user =>
          st.session_set "user" (SDict user) ;;;
          st.success ("Welcome, "
                      +:+ match dict_item user "name" with
                          | Ok (PStr n) => n
                          | _ => EmptyString
                          end +:+ "!") ;;;
          st.rerun
      | None => raise (KeyError email)
      end
    else st.error "Invalid credentials"
  else ret tt.

End DashboardAuth.

End auth.

(* ===================================================================== *)
(** * [rh_sso_auth.py]: the federated session authenticator *)
(* ===================================================================== *)

Module rh_sso_auth.

(** What [requests] gives back: a response with a status and a JSON
    body, or an exception of the transport. *)
Inductive HttpResult :=
| Response (status_code : Z) (json : Dict)
| RequestException.

(** The form posted to the token endpoint. *)
Record TokenRequest := mkTokenRequest {
  grant_type : string;
  req_client_id : string;
  req_client_secret : string;
  req_code : string;
  req_redirect_uri : string;
  req_code_verifier : option SVal
}.

Section RedHatSSOAuth.

(** Client configuration of the environment and the identity provider's
    two endpoints. *)
Variable client_id client_secret redirect_uri : string.
Variable token_endpoint : TokenRequest -> HttpResult.
Variable userinfo_endpoint : PyVal -> HttpResult.

(** The status code and the exception text of the messages shown on
    failure are left out of the message. *)
Definition exchange_code_for_tokens (authorization_code : string)
  (state : string) : M (option Dict) :=
  stored <- st.session_get "oauth_state" ;;
  if negb (bool_decide (stored = Some (SPy (PStr state)))) then
    st.error "Invalid OAuth state parameter" ;;;
    ret None
  else
    verifier <- st.session_get "oauth_code_verifier" ;;
    let token_data :=
      mkTokenRequest "authorization_code" client_id client_secret
                     authorization_code redirect_uri verifier in
    match token_endpoint token_data with
    | Response status body =>
        if (status =? 200)%Z then ret (Some body)
        else st.error "Token exchange failed" ;;; ret None
    | RequestException =>
        st.error "Error exchanging code for token" ;;; ret None
    end.

Definition get_user_info (access_token : PyVal) : M (option Dict) :=
  match userinfo_endpoint access_token with
  | Response status body =>
      if (status =? 200)%Z then ret (Some body)
      else st.error "Failed to get user info" ;;; ret None
  | RequestException => st.error "Error getting user info" ;;; ret None
  end.

(** [decoded.get('nonce') != st.session_state.get('oauth_nonce')] *)
Definition nonce_differs (claimed : option string) (stored : option SVal)
  : bool :=
  match claimed, stored with
  | None, None => false
  | None, Some (SPy PNone) => false
  | Some n, Some (SPy (PStr m)) => negb (String.eqb n m)
  | _, _ => true
  end.

(** [jwt.decode(id_token, options={"verify_signature": False})] followed
    by the nonce check; every exception ends in [None]. *)
Definition verify_jwt_token (id_token : PyVal) : M (option Claims) :=
  match id_token with
  | PJwt (Jws _ decoded _) =>
      stored <- st.session_get "oauth_nonce" ;;
      if nonce_differs (claim_nonce decoded) stored then
        st.error "Invalid nonce in ID token" ;;; ret None
      else ret (Some decoded)
  | _ => st.error "Error verifying ID token" ;;; ret None
  end.

(** ['name' in roles or 'name' in groups] *)
Definition in_roles_or_groups (name : string) (roles : list string)
  (groups : PyVal) : Res bool :=
  if bool_decide (name ∈ roles) then Ok true else py_in name groups.

Definition map_user_roles (user_info : Dict) (id_token_claims : Claims)
  : Res string :=
  let roles := default [] (claim_realm_roles id_token_claims) in
  let groups := dict_get user_info "groups" (PList []) in
  match in_roles_or_groups "ldap-analytics-admin" roles groups with
  | Raise e => Raise e
  | Ok true => Ok "admin"
  | Ok false =>
      match in_roles_or_groups "ldap-analytics-manager" roles groups with
      | Raise e => Raise e
      | Ok true => Ok "manager"
      | Ok false =>
          match in_roles_or_groups "ldap-analytics-auditor" roles groups with
          | Raise e => Raise e
          | Ok true => Ok "auditor"
          | Ok false => Ok "viewer"
          end
      end
  end.

Definition permissions_map : list (string * list string) :=
  [("admin", ["view_all"; "export_data"; "manage_users"; "view_audit"]);
   ("manager", ["view_team"; "export_data"; "view_reports"]);
   ("auditor", ["view_audit"; "view_reports"]);
   ("viewer", ["view_team"; "view_reports"])].

Definition create_user_session (user_info : Dict)
  (id_token_claims : Claims) (tokens : Dict) : M Dict :=
  user_role <- lift (map_user_roles user_info id_token_claims) ;;
  now <- datetime_utcnow ;;
  expires_in <-
    match dict_get tokens "expires_in" (PInt 3600) with
    | PInt n => ret n
    | PBool b => ret (Z.b2z b)
    | _ => raise TypeError
    end ;;
  ret (<["email" := dict_get user_info "email" (PStr EmptyString)]>
      (<["name" := dict_get user_info "name"
                     (dict_get user_info "preferred_username"
                               (PStr EmptyString))]>
      (<["username" := dict_get user_info "preferred_username"
                         (PStr EmptyString)]>
      (<["role" := PStr user_role]>
      (<["permissions" :=
           PList (data_security.assoc_get user_role [] permissions_map)]>
      (<["groups" := dict_get user_info "groups" (PList [])]>
      (<["sso_sub" := PStr (default EmptyString
                              (claim_sub id_token_claims))]>
      (<["session_start" := PInt now]>
      (<["access_token" := dict_get tokens "access_token" PNone]>
      (<["refresh_token" := dict_get tokens "refresh_token" PNone]>
      (<["expires_at" := PInt (now + expires_in)%Z]> ∅))))))))))).

(** [text[0]]: the first character of a text, as a text. *)
Definition str_item0 (text : string) : Res string :=
  match text with
  | EmptyString => Raise IndexError
  | String a _ => Ok (String a EmptyString)
  end.

(** [query_params[k][0]]. [st.query_params] holds one text for each key,
    so the index [0] takes the first character of that text. *)
Definition first_character (query_params : gmap string string)
  (k : string) : Res string :=
  match query_params !! k with
  | None => Raise (KeyError k)
  | Some text => str_item0 text
  end.

(** [if k in st.session_state: del st.session_state[k]] *)
Definition clear_key (k : string) : M unit :=
  present <- st.session_has k ;;
  if present then st.session_del k else ret tt.

(** The callback, for the query parameters of the redirect as
    [st.query_params] gives them: one text for each key. The code and the
    state handed to the exchange are the first characters of the two
    parameters. *)
Definition handle_callback (query_params : gmap string string)
  : M (option Dict) :=
  if bool_decide (is_Some (query_params !! "code"))
     && bool_decide (is_Some (query_params !! "state")) then
    code <- lift (first_character query_params "code") ;;
    state <- lift (first_character query_params "state") ;;
    tokens <- exchange_code_for_tokens code state ;;
    match tokens with
    | None => ret None
    | Some tokens =>
        if bool_decide (tokens = ∅) then ret None
        else
          access_token <- lift (dict_item tokens "access_token") ;;
          user_info <- get_user_info access_token ;;
          match user_info with
          | None => ret None
          | Some user_info =>
              if bool_decide (user_info = ∅) then ret None
              else
                id_token <- lift (dict_item tokens "id_token") ;;
                id_token_claims <- verify_jwt_token id_token ;;
                match id_token_claims with
                | None => ret None
                | Some id_token_claims =>
                    if bool_decide (id_token_claims = no_claims)
                    then ret None
                    else
                      user_session <-
                        create_user_session user_info id_token_claims
                                            tokens ;;
                      for_each
                        ["oauth_state"; "oauth_nonce";
                         "oauth_code_verifier"]
                        clear_key ;;;
                      ret (Some user_session)
                end
          end
    end
  else if bool_decide (is_Some (query_params !! "error")) then
    error <- lift (first_character query_params "error") ;;
    error_description <-
      match query_params !! "error_description" with
      | None => ret EmptyString
      | Some text => lift (str_item0 text)
      end ;;
    st.error ("SSO Error: " +:+ error +:+ " - " +:+ error_description) ;;;
    ret None
  else ret None.

End RedHatSSOAuth.

End rh_sso_auth.

(* ===================================================================== *)
(** * [secure_dashboard.py]: the export path *)
(* ===================================================================== *)

Module secure_dashboard.

Section SecureExport.

(** [DataFrame.to_csv(index=False)] and the time stamp of the file
    name. *)
Variable to_csv : DataFrame -> string.
Variable strftime : Z -> string.

Definition create_secure_export (df : nat) (export_format : string)
  (user_role : string) : M unit :=
  user <- st.session_user ;;
  allowed <- lift (data_security.check_data_access_permission "export"
                     user_role
                     (dict_get user "permissions" (PList []))) ;;
  if negb allowed then
    st.error "You don't have permission to export data"
  else
    sanitized_df <-
      data_security.sanitize_export_data df export_format user_role ;;
    f <- read_frame sanitized_df ;;
    audit_logger.log_data_export "people_data" (length (rows f))
                                 export_format ;;;
    if String.eqb (py.lower export_format) "csv" then
      now <- datetime_utcnow ;;
      st.show (StDownloadButton "Download CSV" (to_csv f)
                 ("ldap_analytics_" +:+ strftime now +:+ ".csv")
                 "text/csv")
    else ret tt.

End SecureExport.

End secure_dashboard.

(* ===================================================================== *)
(** * [data_security.py]: search parameters *)
(* ===================================================================== *)

Module search.

(** The characters that [validate_search_parameters] removes, by code
    point: the two angle brackets (60, 62), the double and the single
    quote (34, 39), the semicolon (59) and the backslash (92). *)
Definition is_dangerous (a : ascii) : bool :=
  let n := nat_of_ascii a in
  (n =? 60)%nat || (n =? 62)%nat || (n =? 34)%nat || (n =? 39)%nat
  || (n =? 59)%nat || (n =? 92)%nat.

(** [re.sub] of that character class by the empty text *)
Fixpoint strip_dangerous (s : string) : string :=
  match s with
  | EmptyString => EmptyString
  | String a r =>
      if is_dangerous a then strip_dangerous r
      else String a (strip_dangerous r)
  end.

(** One entry: a text is stripped and cut to 100 characters, any other
    value is kept. *)
Definition sanitize_value (value : Value) : Value :=
  match value with
  | VStr s => VStr (py.take 100 (strip_dangerous s))
  | _ => value
  end.

(** The search parameters are a dictionary of texts, numbers and missing
    values; the result has the same keys. *)
Definition validate_search_parameters (search_params : gmap string Value)
  : gmap string Value :=
  sanitize_value <$> search_params.

End search.

(* ===================================================================== *)
(** * [auth.py]: the session of the local authenticator *)
(* ===================================================================== *)

Module auth_session.

Section DashboardAuth.

Variable secret_key : string.
Variable session_timeout : Z.
Variable hs256 : string -> Claims -> Z.

Definition authenticate_with_ldap (username password : string)
  : option Dict :=
  let email := username +:+ "@redhat.com" in
  if auth.check_password email password
  then auth.table_get email auth.authorized_users
  else None.

Definition logout : M unit :=
  for_each ["auth_token"; "user"] rh_sso_auth.clear_key ;;;
  st.rerun.

(** The token text held by the session: a value that is no text at all
    is no token either. *)
Definition stored_token (v : option SVal) : Jwt :=
  match v with
  | Some (SPy (PJwt t)) => t
  | Some (SPy (PStr s)) => Garbage s
  | _ => Garbage EmptyString
  end.

Definition is_authenticated : M bool :=
  present <- st.session_has "auth_token" ;;
  if negb present then ret false
  else
    token <- st.session_get "auth_token" ;;
    user <- auth.verify_session_token secret_key hs256 (stored_token token) ;;
    match user with
    | Some user =>
        if bool_decide (user = ∅) then logout ;;; ret false
        else st.session_set "user" (SDict user) ;;; ret true
    | None => logout ;;; ret false
    end.

Definition require_auth (email password : string) (submit : bool)
  : M unit :=
  authenticated <- is_authenticated ;;
  if negb authenticated then
    auth.login_form secret_key session_timeout hs256 email password submit ;;;
    st.stop
  else ret tt.

Definition require_permission (permission : string)
  (email password : string) (submit : bool) : M unit :=
  require_auth email password submit ;;;
  user <- st.session_user ;;
  allowed <- lift (auth.check_permission user permission) ;;
  if negb allowed then
    st.error ("Access Denied: You don't have '" +:+ permission
              +:+ "' permission") ;;;
    st.stop
  else ret tt.

End DashboardAuth.

End auth_session.

(* ===================================================================== *)
(** * Notions used in the statements *)
(* ===================================================================== *)

(** The store of [w'] keeps every frame of the store [F] in place: it is
    [F] followed by the frames allocated since. *)
Definition extends (F : list DataFrame) (w' : World) : Prop :=
  exists extra, frames w' = F ++ extra.


(** The columns of the department aggregate. *)
Definition aggregate_columns : list string :=
  ["Department"; "Team_Size"; "Common_Seniority"].

(** [s] is a modal value of the series [l]: a cell of [l] that is not
    missing and occurs at least as often as any other, or the text
    [Unknown] when every cell of [l] is missing. *)
Definition is_modal (s : Value) (l : list Value) : Prop :=
  (s ∈ l /\ s <> VNone
   /\ forall v, v <> VNone -> (count_of v l <= count_of s l)%nat)
  \/ (s = VStr "Unknown" /\ forall v, v ∈ l -> v = VNone).

(** The masked form of the local part of an address: all stars up to two
    characters, otherwise the first character, stars, the last
    character. *)
Definition masked_local (username : string) : string :=
  if (String.length username <=? 2)%nat then
    py.repeat_char "*" (String.length username)
  else
    match py.first_char username, py.last_char username with
    | Some a, Some z =>
        String a (py.repeat_char "*" (String.length username - 2)
                  +:+ String z EmptyString)
    | _, _ => username
    end.

(** The frame under a reference has the columns and the row labels of
    [D]. *)
Definition same_shape (D : DataFrame) (w : World) (r : nat) : Prop :=
  (r < length (frames w))%nat
  /\ columns (frame_at w r) = columns D
  /\ map row_label (rows (frame_at w r)) = map row_label (rows D).

(** A column name that the masks of the viewer leave alone: it matches
    none of the three keyword lists. *)
Definition not_sensitive (column : string) : Prop :=
  data_security.column_matches data_security.sensitive_fields_email column
  = false
  /\ data_security.column_matches data_security.sensitive_fields_phone column
     = false
  /\ data_security.column_matches
       data_security.sensitive_fields_employee_id column
     = false.

(** An extract that carries an internal column. *)
Definition accounts : DataFrame :=
  mkFrame ["uid"; "email"; "password_hash"; "phone"]
    [mkRow 0 [VStr "ann"; VStr "ann@x.com"; VStr "h1";
              VStr "+1 555 123 4567"];
     mkRow 1 [VStr "bob"; VStr "bob@x.com"; VStr "h2"; VStr "12345"]]
    [].

(** The permissions that satisfy a category of data, [view_all] for a
    category the table does not know. *)
Definition required_permissions (data_type : string) : list string :=
  data_security.assoc_get data_type ["view_all"]
                          data_security.permission_map.

(** ** A small directory extract, used for examples *)

Definition person (label : nat) (uid manager department seniority email
                   : string) : Row :=
  mkRow label [VStr uid; VStr manager; VStr department; VStr seniority;
               VStr email].

Definition people : DataFrame :=
  mkFrame ["uid"; "manager"; "department"; "seniority_level"; "email"]
    [person 0 "boss" "top" "R" "Senior" "boss@x.com";
     person 1 "ann" "boss" "R" "Junior" "ann@x.com";
     person 2 "bob" "ann" "Q" "Junior" "bob@x.com";
     person 3 "cat" "bob" "R" "Junior" "cat@x.com"]
    [].

(** The same extract without the reporting line and the department. *)
Definition people_flat : DataFrame :=
  mkFrame ["uid"; "seniority_level"; "email"]
    [mkRow 0 [VStr "boss"; VStr "Senior"; VStr "boss@x.com"];
     mkRow 1 [VStr "zed"; VStr "Junior"; VStr "zed@y.com"]]
    [].

Definition world_of (f : DataFrame) : World := mkWorld [f] ∅ [] [] 0.

Definition boss_context : Dict := {[ "email" := PStr "boss@x.com" ]}.

(** ** A signing function, tokens and sessions, used for examples *)

Definition example_hs256 (key : string) (payload : Claims) : Z :=
  Z.of_nat (String.length key) + default 0 (claim_exp payload)
  + default 0 (claim_iat payload).

(** A token of the demo user, issued at second 5 and good until second
    10, with its signature under the key [k]. *)
Definition demo_claims : Claims :=
  mkClaims (Some "demo@redhat.com") (Some 10) (Some 5) None None None.

Definition demo_token : Jwt :=
  Jws "HS256" demo_claims (example_hs256 "k" demo_claims).

(** A world with nothing in it but the clock. *)
Definition world_at (now : Z) : World := mkWorld [] ∅ [] [] now.

(** The session of the demo user after a local login. *)
Definition demo_user : Dict :=
  {[ "name" := PStr "Demo User";
     "role" := PStr "viewer";
     "permissions" := PList ["view_team"; "view_reports"] ]}.

Definition admin_user : Dict :=
  {[ "name" := PStr "Christine Rizzo";
     "role" := PStr "admin";
     "permissions" := PList ["view_all"; "export_data"; "manage_users"] ]}.

Definition session_of (user : Dict) : World :=
  mkWorld [people] {[ "user" := SDict user ]} [] [] 0.

(** A federated login in flight: state, nonce and code verifier are
    stored and the callback has not arrived. *)
Definition pending_flow : World :=
  mkWorld []
    {[ "oauth_state" := SPy (PStr "state-1");
       "oauth_nonce" := SPy (PStr "nonce-1");
       "oauth_code_verifier" := SPy (PStr "verifier-1") ]}
    [] [] 0.

(** An identity provider that accepts every code and answers with an
    identity token bound to the nonce of the flight. *)
Definition example_id_claims : Claims :=
  mkClaims (Some "ann@x.com") None None (Some "nonce-1") (Some "sub-1") None.

Definition example_token_endpoint (request : rh_sso_auth.TokenRequest)
  : rh_sso_auth.HttpResult :=
  rh_sso_auth.Response 200
    {[ "access_token" := PStr "access-1";
       "id_token" := PJwt (Jws "RS256" example_id_claims 0);
       "expires_in" := PInt 300 ]}.

Definition example_userinfo_endpoint (access_token : PyVal)
  : rh_sso_auth.HttpResult :=
  rh_sso_auth.Response 200
    {[ "email" := PStr "ann@x.com"; "name" := PStr "Ann" ]}.

(** The query parameters of a callback. *)
Definition callback (code state : string) : gmap string string :=
  {[ "code" := code; "state" := state ]}.

(** A session whose stored state is the single character [s]; no state
    that [get_authorization_url] stores is that short. *)
Definition one_character_flow : World :=
  mkWorld []
    {[ "oauth_state" := SPy (PStr "s");
       "oauth_nonce" := SPy (PStr "nonce-1");
       "oauth_code_verifier" := SPy (PStr "verifier-1") ]}
    [] [] 0.

(** Stand-ins for the CSV writer and the time stamp of the file name. *)
Definition example_to_csv (f : DataFrame) : string := "csv".
Definition example_strftime (now : Z) : string := "now".

(** The session of the demo user at second 7, with the token of the
    example in place. *)
Definition logged_in_demo : World :=
  mkWorld []
    {[ "auth_token" := SPy (PJwt demo_token); "user" := SDict demo_user ]}
    [] [] 7.

(** The profile of a federated user who is in the manager group and in
    the admin group. *)
Definition manager_and_admin_info : Dict :=
  {[ "groups" := PList ["ldap-analytics-manager"; "ldap-analytics-admin"] ]}.

(** Search parameters with markup in a value. *)
Definition markup_query : gmap string Value :=
  {[ "q" := VStr "<b>ann</b>" ]}.

(* ===================================================================== *)
(** * Properties of the column masks *)
(* ===================================================================== *)

Section MaskEmail.

Import data_security.

Lemma length_repeat_char c n : String.length (py.repeat_char c n) = n.
Proof. induction n as [|n IH]; simpl; [reflexivity | now rewrite IH]. Qed.

Lemma length_append_string (s t : string) :
  String.length (s +:+ t) = (String.length s + String.length t)%nat.
Proof. induction s as [|a s IH]; simpl; [reflexivity | now rewrite IH]. Qed.

Lemma contains_char_app c u d :
  py.contains_char c (u +:+ String c d) = true.
Proof.
  induction u as [|a u IH]; simpl.
  - now rewrite Ascii.eqb_refl.
  - destruct (Ascii.eqb a c); [reflexivity | exact IH].
Qed.

(** Cutting at the first separator gives back the two parts. *)
Lemma split1_app c u d :
  py.contains_char c u = false ->
  py.split1 c (u +:+ String c d) = [u; d].
Proof.
  induction u as [|a u IH]; simpl; intros H.
  - now rewrite Ascii.eqb_refl.
  - destruct (Ascii.eqb a c); [discriminate |].
    now rewrite (IH H).
Qed.

Lemma truthy_app u c d : truthy (VStr (u +:+ String c d)) = true.
Proof. destruct u; reflexivity. Qed.

Lemma first_last_some (s : string) :
  (0 < String.length s)%nat ->
  exists a z, py.first_char s = Some a /\ py.last_char s = Some z.
Proof.
  induction s as [|a s IH]; simpl; intros H; [lia |].
  destruct s as [|b s].
  - now exists a, a.
  - destruct IH as (a' & z & _ & Hz); [simpl; lia |].
    exists a, z. split; [reflexivity | exact Hz].
Qed.

(** C7 (as amended). For an address [username@domain] the masked
    address keeps the domain and a local part of the same length: all
    stars when the local part has at most two characters, otherwise its
    first character, stars, and its last character. In particular
    [mask_email "ab@x.com"] is ["**@x.com"] and [mask_email "a@x.com"] is
    ["*@x.com"]. *)
Theorem mask_email_preserves_ends_and_domain :
  (forall username domain : string,
      py.contains_char "@" username = false ->
      exists masked : string,
        mask_email (VStr (username +:+ "@" +:+ domain))
        = Ok (VStr (masked +:+ "@" +:+ domain))
        /\ String.length masked = String.length username
        /\ ((String.length username <= 2)%nat ->
            masked = py.repeat_char "*" (String.length username))
        /\ ((2 < String.length username)%nat ->
            exists a z,
              py.first_char username = Some a
              /\ py.last_char username = Some z
              /\ masked
                 = String a (py.repeat_char "*" (String.length username - 2)
                             +:+ String z EmptyString)))
  /\ mask_email (VStr "ab@x.com") = Ok (VStr "**@x.com")
  /\ mask_email (VStr "a@x.com") = Ok (VStr "*@x.com").
Proof.
  split; [| split; reflexivity].
  intros username domain Hno.
  unfold mask_email.
  change (username +:+ "@" +:+ domain)
    with (username +:+ String "@" domain).
  rewrite truthy_app, contains_char_app, (split1_app _ _ _ Hno). simpl negb.
  cbv iota. unfold py.len.
  destruct (Nat.leb_spec (String.length username) 2) as [Hle | Hgt].
  - exists (py.repeat_char "*" (String.length username)).
    split; [reflexivity |]. split; [apply length_repeat_char |].
    split; [reflexivity | lia].
  - destruct (first_last_some username) as (a & z & Ha & Hz); [lia |].
    rewrite Ha, Hz.
    exists (String a (py.repeat_char "*" (String.length username - 2)
                      +:+ String z EmptyString)).
    split; [reflexivity |]. split.
    + simpl. rewrite length_append_string, length_repeat_char. simpl. lia.
    + split; [lia |]. intros _. now exists a, z.
Qed.

Lemma mask_email_preserves_ends_and_domain_witness :
  py.contains_char "@" "alice" = false
  /\ exists masked : string,
       mask_email (VStr ("alice" +:+ "@" +:+ "x.com"))
       = Ok (VStr (masked +:+ "@" +:+ "x.com"))
       /\ String.length masked = String.length "alice"
       /\ ((String.length "alice" <= 2)%nat ->
           masked = py.repeat_char "*" (String.length "alice"))
       /\ ((2 < String.length "alice")%nat ->
           exists a z,
             py.first_char "alice" = Some a
             /\ py.last_char "alice" = Some z
             /\ masked
                = String a (py.repeat_char "*" (String.length "alice" - 2)
                            +:+ String z EmptyString)).
Proof.
  split; [reflexivity |].
  exact (proj1 mask_email_preserves_ends_and_domain "alice" "x.com" eq_refl).
Defined.

(** C7, as the specification words it, fails on its own example: a local
    part of two characters is masked whole, so ["ab@x.com"] does not
    become ["a*@x.com"]. *)
Lemma mask_email_two_letter_local_part :
  mask_email (VStr "ab@x.com") <> Ok (VStr "a*@x.com").
Proof. intros H. vm_compute in H. discriminate H. Qed.

End MaskEmail.

(* ===================================================================== *)
(** * Properties of the frame store *)
(* ===================================================================== *)

Section Store.

Lemma frame_at_lookup w df D : frames w !! df = Some D -> frame_at w df = D.
Proof. unfold frame_at. now intros ->. Qed.

Lemma lookup_fresh (F : list DataFrame) f : (F ++ [f]) !! length F = Some f.
Proof.
  rewrite lookup_app_r by lia. now rewrite Nat.sub_diag.
Qed.

Lemma frame_at_fresh F f s p a t :
  frame_at (mkWorld (F ++ [f]) s p a t) (length F) = f.
Proof. unfold frame_at. simpl. now rewrite lookup_fresh. Qed.

Lemma extends_refl w : extends (frames w) w.
Proof. exists []. now rewrite app_nil_r. Qed.

Lemma extends_lookup F w' i D :
  extends F w' -> F !! i = Some D -> frames w' !! i = Some D.
Proof.
  intros [extra ->] H. now apply lookup_app_l_Some.
Qed.

Lemma extends_length F w' : extends F w' -> (length F <= length (frames w'))%nat.
Proof. intros [extra ->]. rewrite length_app. lia. Qed.

Lemma new_frame_extends F f w :
  extends F w -> extends F (snd (new_frame f w)).
Proof.
  intros [extra H]. exists (extra ++ [f]). simpl. rewrite H.
  now rewrite app_assoc.
Qed.

(** A write through a reference allocated after [F] leaves [F] alone. *)
Lemma write_frame_extends F r f w :
  (length F <= r)%nat -> extends F w -> extends F (snd (write_frame r f w)).
Proof.
  intros Hr [extra H]. exists (<[(r - length F)%nat := f]> extra). simpl.
  rewrite H. now apply insert_app_r_alt.
Qed.

Lemma for_each_extends {A} F (body : A -> M unit) :
  (forall x w, extends F w -> extends F (snd (body x w))) ->
  forall l w, extends F w -> extends F (snd (for_each l body w)).
Proof.
  intros Hbody l. induction l as [|x l IH]; intros w Hw; [exact Hw |].
  simpl. unfold bind. specialize (Hbody x w Hw).
  destruct (body x w) as [[[]|e] w1]; simpl in *; [now apply IH | exact Hbody].
Qed.

End Store.

(* ===================================================================== *)
(** * Properties of the access-policy engine *)
(* ===================================================================== *)

Section PolicyEngine.

Import data_security.

(** C8. With role [admin] the row filter and the column mask both hand
    back the dataset they were given, and nothing in the world changes. *)
Theorem admin_is_identity (df : nat) (user_context : Dict) (w : World) :
  filter_data_by_access_level df "admin" user_context w = (Ok df, w)
  /\ apply_data_masking df "admin" w = (Ok df, w).
Proof. split; reflexivity. Qed.

Lemma assign_apply_extends F r column g w :
  (length F <= r)%nat ->
  extends F w -> extends F (snd (assign_apply r column g w)).
Proof.
  intros Hr Hw. unfold assign_apply, bind, read_frame, lift.
  destruct (get_column column (frame_at w r)) as [cells|e]; [| exact Hw].
  destruct (series_apply g cells) as [masked|e]; [| exact Hw].
  now apply write_frame_extends.
Qed.

Lemma frame_copy_run df w :
  frame_copy df w
  = (Ok (length (frames w)),
     mkWorld (frames w ++ [frame_at w df]) (session_state w) (page w)
             (audit_log w) (utcnow w)).
Proof. reflexivity. Qed.

Lemma frame_copy_extends F df w :
  extends F w -> extends F (snd (frame_copy df w)).
Proof. intros H. rewrite frame_copy_run. now apply (new_frame_extends F _ w). Qed.

(** The column mask keeps every frame that existed before the call. *)
Lemma apply_data_masking_extends df user_role w :
  extends (frames w) (snd (apply_data_masking df user_role w)).
Proof.
  unfold apply_data_masking.
  destruct (String.eqb user_role "admin"); [apply extends_refl |].
  unfold bind at 1. rewrite frame_copy_run.
  set (w1 := mkWorld _ _ _ _ _).
  assert (H1 : extends (frames w) w1) by (exists [frame_at w df]; reflexivity).
  assert (Hbody : forall fields g (column : string) w2,
             extends (frames w) w2 ->
             extends (frames w)
               (snd ((if column_matches fields column
                      then assign_apply (length (frames w)) column g
                      else ret tt) w2))).
  { intros fields g column w2 H2.
    destruct (column_matches fields column); [| exact H2].
    now apply assign_apply_extends. }
  unfold bind at 1.
  match goal with
  | |- context [(if ?c then ?a else ?b) w1] =>
      assert (Hloop : extends (frames w) (snd ((if c then a else b) w1)))
  end.
  { destruct (_ || _).
    - unfold bind, read_frame. apply for_each_extends; [| exact H1].
      intros column w2 H2.
      destruct (column_matches sensitive_fields_email column);
        [now apply assign_apply_extends |].
      destruct (column_matches sensitive_fields_phone column);
        [now apply assign_apply_extends |].
      destruct (column_matches sensitive_fields_employee_id column);
        [now apply assign_apply_extends | exact H2].
    - destruct (String.eqb user_role "manager"); [| exact H1].
      unfold bind, read_frame. apply for_each_extends; [| exact H1].
      intros column w2 H2. now apply (Hbody sensitive_fields_phone). }
  match goal with
  | |- context [(if ?c then ?a else ?b) w1] =>
      destruct ((if c then a else b) w1) as [[[]|e] w2]
  end; exact Hloop.
Qed.

(** The row filter keeps every frame that existed before the call. *)
Lemma filter_data_by_access_level_extends df user_role user_context w :
  extends (frames w)
          (snd (filter_data_by_access_level df user_role user_context w)).
Proof.
  unfold filter_data_by_access_level.
  destruct (String.eqb user_role "admin"); [apply extends_refl |].
  unfold bind at 1. rewrite frame_copy_run.
  set (w1 := mkWorld _ _ _ _ _).
  assert (H1 : extends (frames w) w1) by (exists [frame_at w df]; reflexivity).
  destruct (String.eqb user_role "manager").
  - unfold bind, lift, read_frame.
    destruct (user_uid_of user_context) as [uid|e]; [| exact H1].
    destruct (has_column "manager" (frame_at w1 (length (frames w))));
      [| exact H1].
    destruct (get_column "manager" _) as [mgr|e]; [| exact H1].
    destruct (get_column "uid" _) as [uids|e]; [| exact H1].
    now apply new_frame_extends.
  - destruct (String.eqb user_role "viewer"); [| exact H1].
    unfold bind, lift, read_frame.
    destruct (0 <? _)%nat; [| exact H1].
    destruct (has_column "department" _); [| exact H1].
    destruct (department_stats _) as [stats|e]; [| exact H1].
    now apply new_frame_extends.
Qed.

Lemma apply_data_masking_result df user_role w r :
  fst (apply_data_masking df user_role w) = Ok r ->
  if String.eqb user_role "admin" then r = df else r = length (frames w).
Proof.
  unfold apply_data_masking.
  destruct (String.eqb user_role "admin"); [intros [= <-]; reflexivity |].
  unfold bind at 1. rewrite frame_copy_run. unfold bind at 1.
  match goal with
  | |- context [(if ?c then ?a else ?b) ?w1] =>
      destruct ((if c then a else b) w1) as [[[]|e] w2]
  end; simpl; [now intros [= <-] | discriminate].
Qed.

Lemma filter_data_by_access_level_result df user_role user_context w r :
  fst (filter_data_by_access_level df user_role user_context w) = Ok r ->
  if String.eqb user_role "admin" then r = df
  else (length (frames w) <= r)%nat.
Proof.
  unfold filter_data_by_access_level.
  destruct (String.eqb user_role "admin"); [intros [= <-]; reflexivity |].
  unfold bind at 1. rewrite frame_copy_run.
  set (w1 := mkWorld _ _ _ _ _).
  destruct (String.eqb user_role "manager").
  - unfold bind, lift, read_frame.
    destruct (user_uid_of user_context) as [uid|e]; [| discriminate].
    destruct (has_column "manager" (frame_at w1 (length (frames w))));
      [| simpl; intros [= <-]; lia].
    destruct (get_column "manager" _) as [mgr|e]; [| discriminate].
    destruct (get_column "uid" _) as [uids|e]; [| discriminate].
    simpl. intros [= <-]. rewrite length_app. lia.
  - destruct (String.eqb user_role "viewer"); [| simpl; intros [= <-]; lia].
    unfold bind, lift, read_frame.
    destruct (0 <? _)%nat; [| simpl; intros [= <-]; lia].
    destruct (has_column "department" _); [| simpl; intros [= <-]; lia].
    destruct (department_stats _) as [stats|e]; [| discriminate].
    simpl. intros [= <-]. rewrite length_app. lia.
Qed.

(** C9 (as amended). Neither the row filter nor the column mask changes
    the dataset it is given: whatever the role and whether the call
    returns or raises, the input reference denotes the same frame after
    the call. For a role other than [admin] the result is a frame object
    allocated by the call; for [admin] it is the input object itself. *)
Theorem policy_engine_never_mutates_input (df : nat) (user_role : string)
  (user_context : Dict) (w : World) (D : DataFrame) :
  frames w !! df = Some D ->
  frames (snd (filter_data_by_access_level df user_role user_context w)) !! df
  = Some D
  /\ frames (snd (apply_data_masking df user_role w)) !! df = Some D
  /\ (forall r,
        fst (filter_data_by_access_level df user_role user_context w) = Ok r ->
        if String.eqb user_role "admin" then r = df
        else (length (frames w) <= r)%nat)
  /\ (forall r,
        fst (apply_data_masking df user_role w) = Ok r ->
        if String.eqb user_role "admin" then r = df
        else r = length (frames w)).
Proof.
  intros HD. repeat split.
  - eapply extends_lookup; [apply filter_data_by_access_level_extends | exact HD].
  - eapply extends_lookup; [apply apply_data_masking_extends | exact HD].
  - apply filter_data_by_access_level_result.
  - apply apply_data_masking_result.
Qed.

Lemma policy_engine_never_mutates_input_witness :
  frames (world_of people) !! 0%nat = Some people
  /\ frames (snd (filter_data_by_access_level 0 "viewer" boss_context
                    (world_of people))) !! 0%nat
     = Some people
  /\ frames (snd (apply_data_masking 0 "viewer" (world_of people))) !! 0%nat
     = Some people.
Proof.
  split; [reflexivity |].
  pose proof (policy_engine_never_mutates_input 0 "viewer" boss_context
                (world_of people) people eq_refl) as (H1 & H2 & _).
  split; [exact H1 | exact H2].
Defined.

(** C9, as the specification words it, promises a copy for every role;
    for [admin] the result is the very object that was passed in. *)
Lemma admin_result_is_the_input_object :
  ~ (forall (df : nat) (user_role : string) (user_context : Dict)
            (w : World) (r : nat),
        is_Some (frames w !! df) ->
        (fst (filter_data_by_access_level df user_role user_context w) = Ok r
         -> r <> df)
        /\ (fst (apply_data_masking df user_role w) = Ok r -> r <> df)).
Proof.
  intros H.
  destruct (H 0%nat "admin" boss_context (world_of people) 0%nat) as [H1 _].
  - now exists people.
  - now apply H1.
Qed.

(** The row filter for [manager] on a frame without a [manager] column. *)
Lemma manager_filter_unfiltered_run df user_context w D uid :
  frames w !! df = Some D ->
  has_column "manager" D = false ->
  user_uid_of user_context = Ok uid ->
  filter_data_by_access_level df "manager" user_context w
  = (Ok (length (frames w)),
     mkWorld (frames w ++ [D]) (session_state w) (page w) (audit_log w)
             (utcnow w)).
Proof.
  intros HD Hcol Huid.
  unfold filter_data_by_access_level.
  change (String.eqb "manager" "admin") with false.
  change (String.eqb "manager" "manager") with true. cbv iota.
  unfold bind at 1. rewrite frame_copy_run, (frame_at_lookup _ _ _ HD).
  unfold bind, lift, read_frame. rewrite Huid, frame_at_fresh.
  now rewrite Hcol.
Qed.

(** C10. On a dataset without a [manager] column the row filter for role
    [manager] filters nothing: the result is a new frame equal to the
    whole dataset, whoever the principal is. *)
Theorem manager_filter_without_manager_column (df : nat)
  (user_context : Dict) (w : World) (D : DataFrame) (uid : string) :
  frames w !! df = Some D ->
  has_column "manager" D = false ->
  user_uid_of user_context = Ok uid ->
  exists r w',
    filter_data_by_access_level df "manager" user_context w = (Ok r, w')
    /\ r <> df
    /\ frames w' !! r = Some D
    /\ frames w' !! df = Some D.
Proof.
  intros HD Hcol Huid.
  eexists _, _. split; [now apply (manager_filter_unfiltered_run _ _ _ D uid) |].
  simpl. split; [| split].
  - apply lookup_lt_Some in HD. lia.
  - apply lookup_fresh.
  - now apply lookup_app_l_Some.
Qed.

Lemma manager_filter_without_manager_column_witness :
  frames (world_of people_flat) !! 0%nat = Some people_flat
  /\ has_column "manager" people_flat = false
  /\ user_uid_of boss_context = Ok "boss"
  /\ exists r w',
       filter_data_by_access_level 0 "manager" boss_context
         (world_of people_flat) = (Ok r, w')
       /\ r <> 0%nat
       /\ frames w' !! r = Some people_flat
       /\ frames w' !! 0%nat = Some people_flat.
Proof.
  split; [reflexivity |]. split; [reflexivity |]. split; [reflexivity |].
  apply (manager_filter_without_manager_column 0 boss_context
           (world_of people_flat) people_flat "boss");
    reflexivity.
Defined.

(** ** The manager's team *)








(** In the example extract [cat] reports to [bob], who reports to [ann],
    who reports to [boss]: the manager [boss] sees the first three rows
    and not the row of [cat]. *)
Example third_level_report_not_returned :
  let '(r, w') :=
    filter_data_by_access_level 0 "manager" boss_context (world_of people) in
  r = Ok 2%nat
  /\ map row_label (rows (frame_at w' 2)) = [0; 1; 2]%nat.
Proof. vm_compute. split; reflexivity. Qed.

(** ** The department aggregate *)

Lemma insert_sorted_perm v l : insert_sorted v l ≡ₚ v :: l.
Proof.
  induction l as [|x l IH]; simpl; [reflexivity |].
  destruct (value_leb v x); [reflexivity |].
  rewrite IH. apply Permutation_swap.
Qed.

Lemma sort_values_perm l : sort_values l ≡ₚ l.
Proof.
  induction l as [|x l IH]; simpl; [reflexivity |].
  unfold sort_values in IH. now rewrite insert_sorted_perm, IH.
Qed.

Lemma distinct_sorted_NoDup l : NoDup (distinct_sorted l).
Proof.
  unfold distinct_sorted. rewrite sort_values_perm. apply NoDup_remove_dups.
Qed.

Lemma elem_of_distinct_sorted l v :
  v ∈ distinct_sorted l <-> v <> VNone /\ v ∈ l.
Proof.
  unfold distinct_sorted.
  now rewrite sort_values_perm, elem_of_remove_dups, list_elem_of_filter.
Qed.

Lemma count_of_pos v l : v ∈ l <-> (0 < count_of v l)%nat.
Proof.
  unfold count_of. induction l as [|x l IH].
  - simpl. split; [intros H; now apply not_elem_of_nil in H | lia].
  - rewrite filter_cons, elem_of_cons. destruct (decide (x = v)) as [->|Hne].
    + simpl. split; [lia | now left].
    + rewrite <- IH. split; [intros [H|H]; [congruence | exact H] | now right].
Qed.

Lemma foldr_max_ge (g : Value -> nat) keys k :
  k ∈ keys -> (g k <= foldr Nat.max O (map g keys))%nat.
Proof.
  induction keys as [|x keys IH]; intros H.
  - now apply not_elem_of_nil in H.
  - apply elem_of_cons in H as [->|H]; simpl; [lia |].
    specialize (IH H). lia.
Qed.

Lemma foldr_max_attained (g : Value -> nat) keys :
  keys <> [] -> exists k, k ∈ keys /\ g k = foldr Nat.max O (map g keys).
Proof.
  induction keys as [|x keys IH]; intros Hne; [congruence |].
  destruct keys as [|y keys].
  - exists x. split; [now left | simpl; lia].
  - destruct IH as (k & Hk & Hg); [discriminate |].
    simpl in *.
    destruct (Nat.max_spec (g x) (Nat.max (g y) (foldr Nat.max O (map g keys))))
      as [[Hlt ->] | [Hge ->]].
    + exists k. split; [now right | exact Hg].
    + exists x. split; [now left | reflexivity].
Qed.

(** The value the seniority lambda picks is a modal value of the
    series. *)
Lemma common_seniority_is_modal l : is_modal (common_seniority l) l.
Proof.
  unfold common_seniority, series_mode.
  set (keys := distinct_sorted l).
  set (top := foldr Nat.max O (map (fun v => count_of v l) keys)).
  destruct (filter (fun v => count_of v l = top) keys) as [|m ms] eqn:Hf.
  - right. split; [reflexivity |]. intros v Hv.
    destruct (decide (v = VNone)) as [|Hne]; [assumption |]. exfalso.
    assert (Hk : keys <> []).
    { intros Hnil.
      assert (Hin : v ∈ keys) by (apply elem_of_distinct_sorted; now split).
      rewrite Hnil in Hin. now apply not_elem_of_nil in Hin. }
    destruct (foldr_max_attained (fun v => count_of v l) keys Hk)
      as (k & Hkin & Hkc).
    assert (Hin : k ∈ filter (fun v => count_of v l = top) keys)
      by (apply list_elem_of_filter; now split).
    rewrite Hf in Hin. now apply not_elem_of_nil in Hin.
  - left.
    assert (Hm : m ∈ filter (fun v => count_of v l = top) keys)
      by (rewrite Hf; now left).
    apply list_elem_of_filter in Hm as [Hc Hm].
    apply elem_of_distinct_sorted in Hm as [Hne Hm].
    split; [exact Hm |]. split; [exact Hne |].
    intros v Hv. rewrite Hc.
    destruct (decide (v ∈ l)) as [Hin | Hnin].
    + apply (foldr_max_ge (fun v => count_of v l)).
      apply elem_of_distinct_sorted. now split.
    + destruct (count_of v l) eqn:Hz; [lia |].
      exfalso. apply Hnin, count_of_pos. lia.
Qed.

Lemma series_count_group d u key (rs : list Row) :
  series_count (group_cells d u key rs)
  = length (filter (fun r => cell_at d r = key /\ cell_at u r <> VNone) rs).
Proof.
  unfold series_count, group_cells.
  induction rs as [|r rs IH]; [reflexivity |].
  rewrite !filter_cons.
  destruct (decide (cell_at d r = key)) as [Hk|Hk].
  - simpl. rewrite filter_cons.
    destruct (decide (cell_at u r <> VNone)) as [Hu|Hu].
    + rewrite decide_True by now split. simpl. now rewrite IH.
    + rewrite decide_False by (intros [_ H]; now apply Hu). exact IH.
  - rewrite decide_False by (intros [H _]; now apply Hk). exact IH.
Qed.

Lemma row_cells_number_rows n cells :
  map row_cells (number_rows n cells) = cells.
Proof.
  revert n. induction cells as [|c cells IH]; intros n; simpl;
    [reflexivity | now rewrite IH].
Qed.

Lemma elem_of_number_rows n cells row :
  row ∈ number_rows n cells -> row_cells row ∈ cells.
Proof.
  intros H. rewrite <- (row_cells_number_rows n cells).
  apply list_elem_of_fmap. now exists row.
Qed.

Lemma first_cells_number_rows n (g : Value -> list Value) keys :
  (forall k, nth 0 (g k) VNone = k) ->
  map (cell_at 0) (number_rows n (map g keys)) = keys.
Proof.
  intros Hg. revert n. induction keys as [|k keys IH]; intros n; simpl;
    [reflexivity |].
  rewrite IH. unfold cell_at at 1. simpl row_cells. now rewrite Hg.
Qed.

(** X27. On a dataset that has rows and the columns [department], [uid]
    and [seniority_level], the row filter for role [viewer] returns a new
    frame of the aggregate shape: the columns [Department], [Team_Size],
    [Common_Seniority], one row for each department of the dataset and no
    two rows for the same department, each row holding the department,
    the number of its records whose [uid] is not missing, and a modal
    seniority level of its records. *)
Theorem viewer_gets_department_aggregate (df : nat) (user_context : Dict)
  (w : World) (D : DataFrame) (d u s : nat) :
  frames w !! df = Some D ->
  rows D <> [] ->
  column_index "department" (columns D) = Some d ->
  column_index "uid" (columns D) = Some u ->
  column_index "seniority_level" (columns D) = Some s ->
  exists r w' A,
    filter_data_by_access_level df "viewer" user_context w = (Ok r, w')
    /\ frames w' !! r = Some A
    /\ columns A = aggregate_columns
    /\ NoDup (map (cell_at 0) (rows A))
    /\ (forall k,
          k ∈ map (cell_at 0) (rows A)
          <-> k <> VNone /\ k ∈ map (cell_at d) (rows D))
    /\ (forall row,
          row ∈ rows A ->
          exists k m,
            row_cells row
            = [k;
               VInt (Z.of_nat
                       (length
                          (filter (fun r => cell_at d r = k
                                            /\ cell_at u r <> VNone)
                                  (rows D))));
               m]
            /\ is_modal m
                 (map (cell_at s)
                      (filter (fun r => cell_at d r = k) (rows D)))).
Proof.
  intros HD Hrows Hd Hu Hs.
  unfold filter_data_by_access_level.
  change (String.eqb "viewer" "admin") with false.
  change (String.eqb "viewer" "manager") with false.
  change (String.eqb "viewer" "viewer") with true. cbv iota.
  unfold bind at 1. rewrite frame_copy_run, (frame_at_lookup _ _ _ HD).
  unfold bind, lift, read_frame. rewrite frame_at_fresh.
  replace (0 <? length (rows D))%nat with true
    by (symmetry; apply Nat.ltb_lt; destruct (rows D); [congruence | simpl; lia]).
  unfold has_column, department_stats. rewrite Hd, Hu, Hs.
  eexists _, _, _. split; [reflexivity |].
  split; [simpl; apply lookup_fresh |].
  split; [reflexivity |]. simpl rows.
  rewrite (first_cells_number_rows 0
             (fun key =>
                [key;
                 VInt (Z.of_nat (series_count (group_cells d u key (rows D))));
                 common_seniority (group_cells d s key (rows D))]))
    by reflexivity.
  split; [apply distinct_sorted_NoDup |].
  split; [intros k; apply elem_of_distinct_sorted |].
  intros row Hrow. apply elem_of_number_rows in Hrow.
  apply list_elem_of_fmap in Hrow as (k & -> & _).
  exists k, (common_seniority (group_cells d s k (rows D))).
  split; [now rewrite series_count_group |].
  apply common_seniority_is_modal.
Qed.

Lemma viewer_gets_department_aggregate_witness :
  frames (world_of people) !! 0%nat = Some people
  /\ rows people <> []
  /\ exists r w' A,
       filter_data_by_access_level 0 "viewer" boss_context (world_of people)
       = (Ok r, w')
       /\ frames w' !! r = Some A
       /\ columns A = aggregate_columns
       /\ NoDup (map (cell_at 0) (rows A))
       /\ (forall k,
             k ∈ map (cell_at 0) (rows A)
             <-> k <> VNone /\ k ∈ map (cell_at 2) (rows people))
       /\ (forall row,
             row ∈ rows A ->
             exists k m,
               row_cells row
               = [k;
                  VInt (Z.of_nat
                          (length
                             (filter (fun r => cell_at 2 r = k
                                               /\ cell_at 0 r <> VNone)
                                     (rows people))));
                  m]
               /\ is_modal m
                    (map (cell_at 3)
                         (filter (fun r => cell_at 2 r = k) (rows people)))).
Proof.
  split; [reflexivity |]. split; [discriminate |].
  apply (viewer_gets_department_aggregate 0 boss_context (world_of people)
           people 2 0 3);
    [reflexivity | discriminate | reflexivity | reflexivity | reflexivity].
Defined.

(** The aggregate of the example extract: department [Q] with one record,
    department [R] with three, most of them [Junior]. *)
Example viewer_aggregate_of_people :
  let '(r, w') :=
    filter_data_by_access_level 0 "viewer" boss_context (world_of people) in
  r = Ok 2%nat
  /\ map row_cells (rows (frame_at w' 2))
     = [[VStr "Q"; VInt 1; VStr "Junior"]; [VStr "R"; VInt 3; VStr "Junior"]].
Proof. vm_compute. split; reflexivity. Qed.

(** X28. The aggregation for the viewer is guarded: on a dataset without
    rows and on a dataset without a [department] column the row filter
    for role [viewer] returns a new frame equal to the dataset, every row
    in the columns of the input. *)
Theorem viewer_guards_return_copy (df : nat) (user_context : Dict)
  (w : World) (D : DataFrame) :
  frames w !! df = Some D ->
  rows D = [] \/ has_column "department" D = false ->
  filter_data_by_access_level df "viewer" user_context w
  = (Ok (length (frames w)),
     mkWorld (frames w ++ [D]) (session_state w) (page w) (audit_log w)
             (utcnow w)).
Proof.
  intros HD Hguard.
  unfold filter_data_by_access_level.
  change (String.eqb "viewer" "admin") with false.
  change (String.eqb "viewer" "manager") with false.
  change (String.eqb "viewer" "viewer") with true. cbv iota.
  unfold bind at 1. rewrite frame_copy_run, (frame_at_lookup _ _ _ HD).
  unfold bind, lift, read_frame. rewrite frame_at_fresh.
  destruct Hguard as [-> | Hno]; [reflexivity |].
  rewrite Hno. now destruct (0 <? _)%nat.
Qed.

Lemma viewer_guards_return_copy_witness :
  frames (world_of people_flat) !! 0%nat = Some people_flat
  /\ has_column "department" people_flat = false
  /\ exists r w',
       filter_data_by_access_level 0 "viewer" boss_context
         (world_of people_flat)
       = (Ok r, w')
       /\ frames w' !! r = Some people_flat
       /\ length (rows (frame_at w' r)) = 2%nat.
Proof.
  split; [reflexivity |]. split; [reflexivity |].
  eexists _, _. split.
  - exact (viewer_guards_return_copy 0 boss_context (world_of people_flat)
             people_flat eq_refl (or_intror eq_refl)).
  - split; reflexivity.
Defined.

(** C1, at role [auditor]. The row filter has a branch for [manager] and
    one for [viewer] and none for [auditor]: for every dataset and every
    principal context the auditor receives a new frame that is the
    dataset itself, every person record in the columns of the input, and
    no aggregate. The column mask does treat the two roles alike
    ([user_role in ['viewer', 'auditor']]). *)
Theorem auditor_gets_row_level_records (df : nat) (user_context : Dict)
  (w : World) (D : DataFrame) :
  frames w !! df = Some D ->
  filter_data_by_access_level df "auditor" user_context w
  = (Ok (length (frames w)),
     mkWorld (frames w ++ [D]) (session_state w) (page w) (audit_log w)
             (utcnow w)).
Proof.
  intros HD. unfold filter_data_by_access_level.
  change (String.eqb "auditor" "admin") with false.
  change (String.eqb "auditor" "manager") with false.
  change (String.eqb "auditor" "viewer") with false. cbv iota.
  unfold bind at 1. now rewrite frame_copy_run, (frame_at_lookup _ _ _ HD).
Qed.

Lemma auditor_gets_row_level_records_witness :
  frames (world_of people) !! 0%nat = Some people
  /\ exists r w',
       filter_data_by_access_level 0 "auditor" boss_context (world_of people)
       = (Ok r, w')
       /\ frames w' !! r = Some people
       /\ columns (frame_at w' r)
          = ["uid"; "manager"; "department"; "seniority_level"; "email"]
       /\ columns (frame_at w' r) <> aggregate_columns
       /\ length (rows (frame_at w' r)) = 4%nat.
Proof.
  split; [reflexivity |]. eexists _, _. split.
  - exact (auditor_gets_row_level_records 0 boss_context (world_of people)
             people eq_refl).
  - split; [reflexivity |]. split; [reflexivity |].
    split; [discriminate | reflexivity].
Defined.

(** The same dataset under the two roles: the viewer receives two
    aggregate rows, the auditor the four person records. *)
Example viewer_and_auditor_on_people :
  let '(_, wv) :=
    filter_data_by_access_level 0 "viewer" boss_context (world_of people) in
  let '(_, wa) :=
    filter_data_by_access_level 0 "auditor" boss_context (world_of people) in
  map row_cells (rows (frame_at wv 2))
  = [[VStr "Q"; VInt 1; VStr "Junior"]; [VStr "R"; VInt 3; VStr "Junior"]]
  /\ rows (frame_at wa 1) = rows people.
Proof. vm_compute. split; reflexivity. Qed.

End PolicyEngine.

(* ===================================================================== *)
(** * Properties of the local session authenticator *)
(* ===================================================================== *)

Section LocalAuth.

Variable secret_key : string.
Variable session_timeout : Z.
Variable hs256 : string -> Claims -> Z.

(** Decoding rejects a token whose expiry is not in the future, whatever
    its signature. *)
Lemma jwt_decode_expired alg payload signature key algorithms now exp :
  claim_exp payload = Some exp ->
  (exp < now)%Z ->
  auth.jwt_decode hs256 (Jws alg payload signature) key algorithms now
  = Raise InvalidTokenError
  \/ auth.jwt_decode hs256 (Jws alg payload signature) key algorithms now
     = Raise ExpiredSignatureError.
Proof.
  intros Hexp Hlt. unfold auth.jwt_decode. rewrite Hexp.
  destruct (negb (bool_decide (alg ∈ algorithms))); [now left |].
  destruct (negb (signature =? hs256 key payload)%Z); [now left |].
  assert (Hle : (exp <=? now)%Z = true) by (apply Z.leb_le; lia).
  rewrite Hle.
  destruct (claim_iat payload) as [iat|]; [| now right].
  destruct (now <? iat)%Z; [now left | now right].
Qed.

(** C6. A session token whose expiry lies in the past is refused:
    [verify_session_token] returns no principal, whether or not the
    signature is the right one. *)
Theorem expired_session_token_fails (alg : string) (payload : Claims)
  (signature : Z) (exp : Z) (w : World) :
  claim_exp payload = Some exp ->
  (exp < utcnow w)%Z ->
  fst (auth.verify_session_token secret_key hs256
         (Jws alg payload signature) w)
  = Ok None.
Proof.
  intros Hexp Hlt. unfold auth.verify_session_token, bind, datetime_utcnow.
  destruct (jwt_decode_expired alg payload signature secret_key ["HS256"]
              (utcnow w) exp Hexp Hlt) as [-> | ->];
    reflexivity.
Qed.

(** The login form never reaches the audit sink: whatever is typed and
    whether or not the button is pressed, the audit file is the same
    after the form has run. *)
Lemma login_form_audit_log (email password : string) (submit : bool)
  (w : World) :
  audit_log (snd (auth.login_form secret_key session_timeout hs256
                    email password submit w))
  = audit_log w.
Proof.
  unfold auth.login_form.
  destruct submit; [| reflexivity].
  destruct (auth.check_password email password); [| reflexivity].
  unfold bind at 1. unfold auth.create_session_token, bind at 1.
  unfold datetime_utcnow, ret. unfold bind at 1. simpl st.session_set.
  destruct (auth.table_get email auth.authorized_users) as [user|];
    reflexivity.
Qed.

End LocalAuth.

Lemma expired_session_token_fails_witness :
  claim_exp demo_claims = Some 10
  /\ (10 < utcnow (world_at 100))%Z
  /\ fst (auth.verify_session_token "k" example_hs256 demo_token
            (world_at 100))
     = Ok None.
Proof.
  split; [reflexivity |]. split; [reflexivity |].
  apply (expired_session_token_fails "k" example_hs256 "HS256" demo_claims
           (example_hs256 "k" demo_claims) 10 (world_at 100));
    reflexivity.
Defined.

(** The same token, with its good signature, is accepted while it is
    young and refused with the message for expired sessions afterwards. *)
Example demo_token_before_and_after_expiry :
  auth.verify_session_token "k" example_hs256 demo_token (world_at 7)
  = (Ok (Some demo_user), world_at 7)
  /\ auth.verify_session_token "k" example_hs256 demo_token (world_at 100)
     = (Ok None,
        mkWorld [] ∅ [StError "Session expired. Please log in again."] []
                100).
Proof. split; vm_compute; reflexivity. Qed.

(** What [log_login_attempt] writes when it is called: one record of
    type [LOGIN_ATTEMPT], at level [WARNING] for a failed attempt and
    [INFO] for a successful one. *)
Lemma log_login_attempt_writes_one_record (email ip : string)
  (success : bool) (w : World) (user : Dict) :
  st.session_user w = (Ok user, w) ->
  exists record,
    audit_logger.log_login_attempt email success ip w
    = (Ok tt,
       mkWorld (frames w) (session_state w) (page w)
               (audit_log w
                ++ [mkLine (if success then INFO else WARNING) record])
               (utcnow w))
    /\ event_type record = "LOGIN_ATTEMPT"
    /\ severity record = (if success then "INFO" else "WARNING").
Proof.
  intros Huser.
  unfold audit_logger.log_login_attempt, audit_logger.log_event,
    audit_logger.get_user_context.
  unfold bind at 1. unfold bind at 1. rewrite Huser.
  unfold bind, st.session_get, datetime_utcnow, ret.
  destruct success; eexists; (split; [reflexivity | split; reflexivity]).
Qed.

(** C4, at a failed login. The visitor submits a wrong password for a
    known account: the form shows the error message and the audit file
    receives nothing, where the claim asks for one record of level
    [WARNING] or above. *)
Theorem failed_login_writes_no_audit_record (secret_key : string)
  (session_timeout : Z) (hs256 : string -> Claims -> Z) (w : World) :
  auth.login_form secret_key session_timeout hs256
    "demo@redhat.com" "wrong" true w
  = (Ok tt,
     mkWorld (frames w) (session_state w)
             (page w ++ [StError "Invalid credentials"]) (audit_log w)
             (utcnow w)).
Proof. reflexivity. Qed.

(* ===================================================================== *)
(** * Properties of the export path *)
(* ===================================================================== *)

Section ExportPath.

Variable to_csv : DataFrame -> string.
Variable strftime : Z -> string.

(** A permission list without [export_data] does not pass the check for
    exports. *)
Lemma export_check_denies (user_role : string) (perms : list string) :
  "export_data" ∉ perms ->
  data_security.check_data_access_permission "export" user_role (PList perms)
  = Ok false.
Proof.
  intros Hno. unfold data_security.check_data_access_permission.
  change (data_security.assoc_get "export" ["view_all"]
            data_security.permission_map) with ["export_data"].
  simpl. now rewrite bool_decide_eq_false_2.
Qed.

(** C5. When the permission list of the session does not contain
    [export_data], the export is refused before anything else happens:
    the page shows the refusal, no frame is created (sanitization
    allocates one whenever it runs), the audit file receives nothing and
    no download is offered. *)
Theorem export_without_permission_is_denied (df : nat)
  (export_format user_role : string) (w : World) (user : Dict)
  (perms : list string) :
  st.session_user w = (Ok user, w) ->
  dict_get user "permissions" (PList []) = PList perms ->
  "export_data" ∉ perms ->
  secure_dashboard.create_secure_export to_csv strftime df export_format
    user_role w
  = (Ok tt,
     mkWorld (frames w) (session_state w)
             (page w ++ [StError "You don't have permission to export data"])
             (audit_log w) (utcnow w)).
Proof.
  intros Huser Hperms Hno. unfold secure_dashboard.create_secure_export.
  unfold bind at 1. rewrite Huser.
  unfold bind at 1. unfold lift. rewrite Hperms, (export_check_denies _ _ Hno).
  reflexivity.
Qed.

(** Sanitization always leaves a new frame behind. *)
Lemma sanitize_export_data_allocates df export_format user_role w :
  (length (frames w)
   < length (frames (snd (data_security.sanitize_export_data
                            df export_format user_role w))))%nat.
Proof.
  unfold data_security.sanitize_export_data.
  unfold bind at 1. rewrite frame_copy_run.
  set (w1 := mkWorld _ _ _ _ _).
  assert (H1 : (length (frames w) < length (frames w1))%nat)
    by (simpl; rewrite length_app; simpl; lia).
  unfold bind at 1. unfold read_frame.
  unfold bind at 1.
  match goal with
  | |- context [match ?c with [] => ?a | _ :: _ => ?b end w1] =>
      assert (H2 : (length (frames w)
                    < length (frames (snd (match c with
                                           | [] => a
                                           | _ :: _ => b
                                           end w1))))%nat);
      [destruct c; simpl; [exact H1 | rewrite !length_app; simpl; lia] |];
      destruct (match c with [] => a | _ :: _ => b end w1)
        as [[r2|e] w2]; [| exact H2]
  end.
  simpl in H2. unfold bind at 1.
  pose proof (extends_length _ _
                (apply_data_masking_extends r2 user_role w2)) as H3.
  destruct (data_security.apply_data_masking r2 user_role w2)
    as [[r3|e] w3]; simpl in H3; [| simpl; lia].
  unfold bind at 1.
  destruct (String.eqb (py.lower export_format) "csv"); simpl;
    [rewrite length_insert |]; lia.
Qed.

End ExportPath.

Lemma export_without_permission_is_denied_witness :
  st.session_user (session_of demo_user) = (Ok demo_user, session_of demo_user)
  /\ dict_get demo_user "permissions" (PList [])
     = PList ["view_team"; "view_reports"]
  /\ ("export_data" ∉ ["view_team"; "view_reports"])
  /\ secure_dashboard.create_secure_export example_to_csv example_strftime
       0 "csv" "viewer" (session_of demo_user)
     = (Ok tt,
        mkWorld [people] {[ "user" := SDict demo_user ]}
                [StError "You don't have permission to export data"] [] 0).
Proof.
  assert (Hno : "export_data" ∉ ["view_team"; "view_reports"]).
  { intros H. apply elem_of_cons in H as [H|H]; [discriminate |].
    apply elem_of_cons in H as [H|H]; [discriminate |].
    now apply not_elem_of_nil in H. }
  split; [reflexivity |]. split; [reflexivity |]. split; [exact Hno |].
  apply (export_without_permission_is_denied example_to_csv example_strftime
           0 "csv" "viewer" (session_of demo_user) demo_user
           ["view_team"; "view_reports"]);
    [reflexivity | reflexivity | exact Hno].
Defined.

(** With the permission the export runs: a sanitized frame is created,
    one [DATA_EXPORT] record is written at level [WARNING], and the
    download is offered. *)
Example export_with_permission :
  let '(r, w') :=
    secure_dashboard.create_secure_export example_to_csv example_strftime
      0 "csv" "admin" (session_of admin_user) in
  r = Ok tt
  /\ length (frames w') = 2%nat
  /\ map (fun l => (levelname l, event_type (message l))) (audit_log w')
     = [(WARNING, "DATA_EXPORT")]
  /\ page w' = [StDownloadButton "Download CSV" "csv"
                  "ldap_analytics_now.csv" "text/csv"].
Proof. vm_compute. repeat split; reflexivity. Qed.

(* ===================================================================== *)
(** * Properties of the federated session authenticator *)
(* ===================================================================== *)

Section Federated.

Variable client_id client_secret redirect_uri : string.
Variable token_endpoint : rh_sso_auth.TokenRequest -> rh_sso_auth.HttpResult.
Variable userinfo_endpoint : PyVal -> rh_sso_auth.HttpResult.

(** The state check sees the first character of the state parameter.
    When the stored state is not that one character the callback is
    refused: no tokens are requested, no user comes back, the page shows
    the refusal, and the session store is left as it was. *)
Lemma callback_refused_at_state_check (a b : ascii) (code state : string)
  (query_params : gmap string string) (w : World) :
  query_params !! "code" = Some (String b code) ->
  query_params !! "state" = Some (String a state) ->
  session_state w !! "oauth_state"
  <> Some (SPy (PStr (String a EmptyString))) ->
  rh_sso_auth.handle_callback client_id client_secret redirect_uri
    token_endpoint userinfo_endpoint query_params w
  = (Ok None,
     mkWorld (frames w) (session_state w)
             (page w ++ [StError "Invalid OAuth state parameter"])
             (audit_log w) (utcnow w)).
Proof.
  intros Hcode Hstate Hne.
  unfold rh_sso_auth.handle_callback. rewrite Hcode, Hstate.
  rewrite !bool_decide_eq_true_2 by (eexists; reflexivity).
  change (true && true) with true. cbv iota.
  unfold rh_sso_auth.first_character. rewrite Hcode, Hstate.
  unfold rh_sso_auth.str_item0.
  unfold bind at 1. unfold lift at 1. unfold bind at 1. unfold lift at 1.
  unfold bind at 1. unfold rh_sso_auth.exchange_code_for_tokens.
  unfold bind at 1. unfold st.session_get at 1.
  rewrite (bool_decide_eq_false_2
             (session_state w !! "oauth_state"
              = Some (SPy (PStr (String a EmptyString)))))
    by exact Hne.
  reflexivity.
Qed.

(** C3. A login is in flight: the session holds a stored state of more
    than one character, as every state that [get_authorization_url]
    stores is. Whatever state the callback carries, the stored one or
    another, the callback is refused and yields no user, and the session
    store is exactly what it was: the stored state, nonce and code
    verifier are still there after the refused callback. The refusal
    does not come from the entry being erased: the state handed to the
    check is the first character of the state parameter, which no stored
    state of more than one character equals. *)
Theorem pending_flow_survives_rejected_callback (code state stored : string)
  (query_params : gmap string string) (w : World) :
  query_params !! "code" = Some code ->
  query_params !! "state" = Some state ->
  code <> EmptyString ->
  state <> EmptyString ->
  session_state w !! "oauth_state" = Some (SPy (PStr stored)) ->
  (1 < String.length stored)%nat ->
  rh_sso_auth.handle_callback client_id client_secret redirect_uri
    token_endpoint userinfo_endpoint query_params w
  = (Ok None,
     mkWorld (frames w) (session_state w)
             (page w ++ [StError "Invalid OAuth state parameter"])
             (audit_log w) (utcnow w)).
Proof.
  intros Hcode Hstate Hc Hs Hstored Hlen.
  destruct code as [|b code]; [congruence |].
  destruct state as [|a state]; [congruence |].
  apply (callback_refused_at_state_check a b code state); [assumption .. |].
  rewrite Hstored. intros [= ->]. simpl in Hlen. lia.
Qed.

End Federated.

Lemma pending_flow_survives_rejected_callback_witness :
  callback "code-1" "forged" !! "code" = Some "code-1"
  /\ callback "code-1" "forged" !! "state" = Some "forged"
  /\ session_state pending_flow !! "oauth_state"
     = Some (SPy (PStr "state-1"))
  /\ exists w1,
       rh_sso_auth.handle_callback "client" "secret" "uri"
         example_token_endpoint example_userinfo_endpoint
         (callback "code-1" "forged") pending_flow
       = (Ok None, w1)
       /\ page w1 = [StError "Invalid OAuth state parameter"]
       /\ session_state w1 !! "oauth_state" = Some (SPy (PStr "state-1"))
       /\ session_state w1 !! "oauth_nonce" = Some (SPy (PStr "nonce-1"))
       /\ session_state w1 !! "oauth_code_verifier"
          = Some (SPy (PStr "verifier-1")).
Proof.
  split; [reflexivity |]. split; [reflexivity |]. split; [reflexivity |].
  eexists. split.
  - apply (pending_flow_survives_rejected_callback "client" "secret" "uri"
             example_token_endpoint example_userinfo_endpoint
             "code-1" "forged" "state-1" (callback "code-1" "forged")
             pending_flow);
      [reflexivity | reflexivity | discriminate | discriminate
      | reflexivity | simpl; lia].
  - repeat split; reflexivity.
Defined.

(** The forged callback followed by a callback with the stored state:
    both are refused, the second although its state is the right one,
    and the pending entries are in the session all along. *)
Example replay_with_stored_state_is_refused :
  exists w1 w2,
    rh_sso_auth.handle_callback "client" "secret" "uri"
      example_token_endpoint example_userinfo_endpoint
      (callback "code-1" "forged") pending_flow
    = (Ok None, w1)
    /\ session_state w1 = session_state pending_flow
    /\ rh_sso_auth.handle_callback "client" "secret" "uri"
         example_token_endpoint example_userinfo_endpoint
         (callback "code-1" "state-1") w1
       = (Ok None, w2)
    /\ session_state w2 = session_state pending_flow
    /\ page w2 = [StError "Invalid OAuth state parameter";
                  StError "Invalid OAuth state parameter"].
Proof.
  eexists _, _.
  split; [vm_compute; reflexivity |].
  split; [reflexivity |].
  split; [vm_compute; reflexivity |].
  split; reflexivity.
Qed.

(* ===================================================================== *)
(** * More on the column masks *)
(* ===================================================================== *)

Section Masks.

Import data_security.

Lemma split_at_first c s :
  py.contains_char c s = true ->
  exists u d, s = u +:+ String c d /\ py.contains_char c u = false.
Proof.
  induction s as [|a s IH]; simpl; [discriminate |].
  destruct (Ascii.eqb a c) eqn:Hac.
  - intros _. apply Ascii.eqb_eq in Hac as ->. now exists EmptyString, s.
  - intros H. destruct (IH H) as (u & d & -> & Hu).
    exists (String a u), d. split; [reflexivity |].
    simpl. now rewrite Hac.
Qed.

Lemma mask_email_app username domain :
  py.contains_char "@" username = false ->
  mask_email (VStr (username +:+ String "@" domain))
  = Ok (VStr (masked_local username +:+ String "@" domain)).
Proof.
  intros Hno. unfold mask_email, masked_local.
  rewrite truthy_app, contains_char_app, (split1_app _ _ _ Hno).
  simpl negb. cbv iota. unfold py.len.
  destruct (Nat.leb_spec (String.length username) 2) as [Hle | Hgt];
    [reflexivity |].
  destruct (first_last_some username) as (a & z & -> & ->); [lia |].
  reflexivity.
Qed.

Lemma contains_char_repeat c a n :
  a <> c -> py.contains_char c (py.repeat_char a n) = false.
Proof.
  intros Hne. induction n as [|n IH]; simpl; [reflexivity |].
  now apply Ascii.eqb_neq in Hne as ->.
Qed.

Lemma contains_char_append c s t :
  py.contains_char c (s +:+ t)
  = py.contains_char c s || py.contains_char c t.
Proof.
  induction s as [|a s IH]; simpl; [reflexivity |].
  destruct (Ascii.eqb a c); [reflexivity | exact IH].
Qed.

Lemma contains_char_first c s a :
  py.contains_char c s = false -> py.first_char s = Some a ->
  Ascii.eqb a c = false.
Proof.
  destruct s as [|b s]; simpl; [discriminate |].
  intros H [= <-]. now destruct (Ascii.eqb b c).
Qed.

Lemma contains_char_last c s z :
  py.contains_char c s = false -> py.last_char s = Some z ->
  Ascii.eqb z c = false.
Proof.
  induction s as [|b s IH]; [discriminate |].
  simpl py.contains_char. destruct (Ascii.eqb b c) eqn:Hb; [discriminate |].
  intros H. simpl. destruct s as [|b' s'].
  - now intros [= <-].
  - intros Hz. now apply IH.
Qed.

Lemma last_char_snoc s z : py.last_char (s +:+ String z EmptyString) = Some z.
Proof.
  induction s as [|a s IH]; [reflexivity |].
  change (String a s +:+ String z EmptyString)
    with (String a (s +:+ String z EmptyString)).
  simpl. rewrite IH. now destruct s.
Qed.

Lemma length_masked_local u :
  String.length (masked_local u) = String.length u.
Proof.
  unfold masked_local.
  destruct (Nat.leb_spec (String.length u) 2) as [Hle | Hgt];
    [apply length_repeat_char |].
  destruct (first_last_some u) as (a & z & -> & ->); [lia |].
  simpl. rewrite length_append_string, length_repeat_char. simpl. lia.
Qed.

Lemma masked_local_no_at u :
  py.contains_char "@" u = false ->
  py.contains_char "@" (masked_local u) = false.
Proof.
  intros Hno. unfold masked_local.
  destruct (Nat.leb_spec (String.length u) 2) as [Hle | Hgt];
    [now apply contains_char_repeat |].
  destruct (py.first_char u) as [a|] eqn:Ha; [| exact Hno].
  destruct (py.last_char u) as [z|] eqn:Hz; [| exact Hno].
  simpl. rewrite (contains_char_first _ _ _ Hno Ha).
  rewrite contains_char_append, contains_char_repeat by discriminate.
  simpl. now rewrite (contains_char_last _ _ _ Hno Hz).
Qed.

Lemma masked_local_idempotent u :
  masked_local (masked_local u) = masked_local u.
Proof.
  unfold masked_local at 1. rewrite length_masked_local.
  unfold masked_local.
  destruct (Nat.leb_spec (String.length u) 2) as [Hle | Hgt]; [reflexivity |].
  destruct (first_last_some u) as (a & z & -> & ->); [lia |].
  simpl py.first_char.
  change (py.last_char (String a
            (py.repeat_char "*" (String.length u - 2)
             +:+ String z EmptyString)))
    with (py.last_char ((String a (py.repeat_char "*" (String.length u - 2)))
                        +:+ String z EmptyString)).
  now rewrite last_char_snoc.
Qed.

(** X1. On every text [mask_email] returns a text of the same length,
    without an exception, and masking the result again changes nothing. *)
Theorem mask_email_is_idempotent (s : string) :
  exists s',
    mask_email (VStr s) = Ok (VStr s')
    /\ String.length s' = String.length s
    /\ mask_email (VStr s') = Ok (VStr s').
Proof.
  destruct (py.contains_char "@" s) eqn:Hat.
  - destruct (split_at_first _ _ Hat) as (u & d & -> & Hu).
    exists (masked_local u +:+ String "@" d).
    split; [now apply mask_email_app |]. split.
    + rewrite !length_append_string, length_masked_local. reflexivity.
    + rewrite mask_email_app by now apply masked_local_no_at.
      now rewrite masked_local_idempotent.
  - exists s.
    assert (H : mask_email (VStr s) = Ok (VStr s)).
    { unfold mask_email. destruct (negb (truthy (VStr s))); [reflexivity |].
      now rewrite Hat. }
    split; [exact H |]. split; [reflexivity | exact H].
Qed.

End Masks.

Section MaskShapes.

Import data_security.

Lemma length_take n s :
  (n <= String.length s)%nat -> String.length (py.take n s) = n.
Proof.
  revert s. induction n as [|n IH]; intros s H; [reflexivity |].
  destruct s as [|a s]; simpl in *; [lia |]. rewrite IH; lia.
Qed.

Lemma length_drop n s :
  String.length (py.drop n s) = (String.length s - n)%nat.
Proof.
  revert s. induction n as [|n IH]; intros s; simpl.
  - lia.
  - destruct s as [|a s]; simpl; [reflexivity | apply IH].
Qed.

Lemma take_append_long n s t :
  (n <= String.length s)%nat -> py.take n (s +:+ t) = py.take n s.
Proof.
  revert s. induction n as [|n IH]; intros s H; [reflexivity |].
  destruct s as [|a s]; simpl in *; [lia |]. rewrite IH; [reflexivity | lia].
Qed.

Lemma take_take n s : py.take n (py.take n s) = py.take n s.
Proof.
  revert s. induction n as [|n IH]; intros s; [reflexivity |].
  destruct s as [|a s]; simpl; [reflexivity | now rewrite IH].
Qed.

Lemma string_app_assoc (s t u : string) :
  s +:+ (t +:+ u) = (s +:+ t) +:+ u.
Proof.
  induction s as [|a s IH]; [reflexivity |].
  change (String a (s +:+ (t +:+ u)) = String a ((s +:+ t) +:+ u)).
  now f_equal.
Qed.

Lemma last_char_some s :
  (0 < String.length s)%nat -> exists z, py.last_char s = Some z.
Proof.
  intros H. destruct (first_last_some s H) as (a & z & _ & Hz).
  now exists z.
Qed.

(** X2. On every text [mask_employee_id] returns a text of the same
    length, without an exception; an identifier of more than three
    characters keeps its first two characters and its last one. *)
Theorem mask_employee_id_keeps_length (s : string) :
  exists s',
    mask_employee_id (VStr s) = Ok (VStr s')
    /\ String.length s' = String.length s
    /\ ((3 < String.length s)%nat ->
        py.take 2 s' = py.take 2 s /\ py.last_char s' = py.last_char s).
Proof.
  unfold mask_employee_id.
  destruct (negb (truthy (VStr s))) eqn:Ht.
  - exists s. split; [reflexivity |]. split; [reflexivity |]. now split.
  - unfold py.len.
    destruct (Nat.leb_spec (String.length s) 3) as [Hle | Hgt].
    + eexists. split; [reflexivity |].
      split; [apply length_repeat_char | lia].
    + destruct (last_char_some s) as [z Hz]; [lia |]. rewrite Hz.
      eexists. split; [reflexivity |]. split.
      * rewrite !length_append_string, length_repeat_char, length_take by lia.
        simpl. lia.
      * intros _. split.
        -- rewrite take_append_long by (rewrite length_take; lia).
           apply take_take.
        -- rewrite string_app_assoc. apply last_char_snoc.
Qed.

(** X3. On every text [mask_phone] returns a text, without an exception,
    in exactly one of three cases: the empty text for the empty text, the
    fixed pattern for a text that is not empty and has fewer than ten
    digits, and otherwise the prefix pattern followed by the last four
    digits of the number and nothing else of it. *)
Theorem mask_phone_shows_last_four_digits (s : string) :
  exists out,
    mask_phone (VStr s) = Ok (VStr out)
    /\ ((s = EmptyString /\ out = EmptyString)
        \/ (s <> EmptyString
            /\ (String.length (py.digits_of s) < 10)%nat
            /\ out = "***-****")
        \/ ((10 <= String.length (py.digits_of s))%nat
            /\ out = "***-***-" +:+ py.last_n 4 (py.digits_of s)
            /\ String.length out = 12%nat)).
Proof.
  unfold mask_phone. destruct s as [|a s].
  - exists EmptyString. split; [reflexivity | now left].
  - change (negb (truthy (VStr (String a s)))) with false. cbv iota.
    unfold py.len.
    destruct (Nat.leb_spec 10 (String.length (py.digits_of (String a s))))
      as [Hge | Hlt].
    + eexists. split; [reflexivity |]. right; right.
      split; [exact Hge |]. split; [reflexivity |].
      rewrite length_append_string. unfold py.last_n.
      rewrite length_drop. simpl String.length at 1. lia.
    + eexists. split; [reflexivity |]. right; left.
      split; [discriminate |]. now split.
Qed.

End MaskShapes.

(* ===================================================================== *)
(** * More on the column mask of a frame *)
(* ===================================================================== *)

Section MaskingFrames.

Import data_security.

Lemma for_each_invariant {A} (P : World -> Prop) (body : A -> M unit) :
  (forall x w, P w -> P (snd (body x w))) ->
  forall l w, P w -> P (snd (for_each l body w)).
Proof.
  intros Hbody l. induction l as [|x l IH]; intros w Hw; [exact Hw |].
  simpl. unfold bind. specialize (Hbody x w Hw).
  destruct (body x w) as [[[]|e] w1]; simpl in *; [now apply IH | exact Hbody].
Qed.

Lemma frame_at_write r f w :
  (r < length (frames w))%nat -> frame_at (snd (write_frame r f w)) r = f.
Proof.
  intros Hr. unfold frame_at. simpl. now rewrite list_lookup_insert_eq.
Qed.

Lemma labels_set_cells i vals rs :
  map row_label (set_cells i vals rs) = map row_label rs.
Proof.
  revert vals. induction rs as [|r rs IH]; intros vals;
    [now destruct vals |].
  destruct vals as [|v vals]; [reflexivity |]. simpl. now rewrite IH.
Qed.

Lemma cell_at_set_cell_ne i j v r :
  i <> j -> cell_at j (set_cell i v r) = cell_at j r.
Proof.
  intros Hne. unfold cell_at, set_cell. simpl.
  rewrite !nth_lookup. now rewrite list_lookup_insert_ne.
Qed.

Lemma cells_set_cells_ne i j vals rs :
  i <> j -> map (cell_at j) (set_cells i vals rs) = map (cell_at j) rs.
Proof.
  intros Hne. revert vals. induction rs as [|r rs IH]; intros vals;
    [now destruct vals |].
  destruct vals as [|v vals]; [reflexivity |]. simpl.
  now rewrite IH, cell_at_set_cell_ne.
Qed.

Lemma column_index_same name name' cols i :
  column_index name cols = Some i -> column_index name' cols = Some i ->
  name = name'.
Proof.
  revert i. induction cols as [|c cols IH]; intros i; simpl; [discriminate |].
  destruct (String.eqb c name) eqn:Hn; destruct (String.eqb c name') eqn:Hn'.
  - intros _ _. apply String.eqb_eq in Hn, Hn'. congruence.
  - intros [= <-]. destruct (column_index name' cols); discriminate.
  - destruct (column_index name cols); [| discriminate].
    intros [= <-]. discriminate.
  - destruct (column_index name cols) as [a|] eqn:Ha; [| discriminate].
    destruct (column_index name' cols) as [b|] eqn:Hb; [| discriminate].
    simpl. intros [= <-] [= ->]. now apply (IH a).
Qed.

Lemma columns_set_column name vals f :
  columns (set_column name vals f) = columns f.
Proof. unfold set_column. now destruct (column_index name (columns f)). Qed.

Lemma labels_set_column name vals f :
  map row_label (rows (set_column name vals f)) = map row_label (rows f).
Proof.
  unfold set_column. destruct (column_index name (columns f));
    [apply labels_set_cells | reflexivity].
Qed.

(** Assigning one column leaves the cells of every other column. *)
Lemma get_column_set_column_ne name c vals f :
  name <> c -> get_column c (set_column name vals f) = get_column c f.
Proof.
  intros Hne. unfold get_column. rewrite columns_set_column.
  destruct (column_index c (columns f)) as [j|] eqn:Hj; [| reflexivity].
  unfold set_column.
  destruct (column_index name (columns f)) as [i|] eqn:Hi; [| reflexivity].
  simpl. rewrite cells_set_cells_ne; [reflexivity |].
  intros ->. apply Hne. now apply (column_index_same _ _ _ _ Hi Hj).
Qed.

Lemma assign_apply_same_shape D r column g w :
  same_shape D w r -> same_shape D (snd (assign_apply r column g w)) r.
Proof.
  intros (Hr & Hc & Hl). unfold assign_apply, bind, read_frame, lift.
  destruct (get_column column (frame_at w r)) as [cells|e];
    [| now split].
  destruct (series_apply g cells) as [masked|e]; [| now split].
  split; [simpl; now rewrite length_insert |].
  rewrite frame_at_write by exact Hr.
  now rewrite columns_set_column, labels_set_column.
Qed.

Lemma assign_apply_other_column r column c g w t :
  column <> c ->
  (r < length (frames w))%nat ->
  get_column c (frame_at w r) = t ->
  get_column c (frame_at (snd (assign_apply r column g w)) r) = t.
Proof.
  intros Hne Hr Ht. unfold assign_apply, bind, read_frame, lift.
  destruct (get_column column (frame_at w r)) as [cells|e]; [| exact Ht].
  destruct (series_apply g cells) as [masked|e]; [| exact Ht].
  rewrite frame_at_write by exact Hr.
  now rewrite get_column_set_column_ne.
Qed.

(** What the column mask keeps, for a property [P] of worlds that every
    assignment of the loop keeps. *)
Lemma apply_data_masking_keeps (P : World -> Prop) df user_role w :
  String.eqb user_role "admin" = false ->
  (forall column g w2,
      (column_matches sensitive_fields_email column = true
       \/ column_matches sensitive_fields_phone column = true
       \/ column_matches sensitive_fields_employee_id column = true) ->
      (String.eqb user_role "manager" = true ->
       column_matches sensitive_fields_phone column = true) ->
      P w2 -> P (snd (assign_apply (length (frames w)) column g w2))) ->
  P (snd (frame_copy df w)) ->
  P (snd (apply_data_masking df user_role w)).
Proof.
  intros Hadmin Hstep H1. unfold apply_data_masking. rewrite Hadmin.
  unfold bind at 1. rewrite frame_copy_run in *. simpl snd in H1.
  set (w1 := mkWorld _ _ _ _ _) in *.
  unfold bind at 1.
  match goal with
  | |- context [(if ?c then ?a else ?b) w1] =>
      assert (Hloop : P (snd ((if c then a else b) w1)))
  end.
  { destruct (String.eqb user_role "viewer" || String.eqb user_role "auditor")
      eqn:Hva.
    - assert (Hm : String.eqb user_role "manager" = false).
      { apply orb_true_iff in Hva as [H|H]; apply String.eqb_eq in H as ->;
          reflexivity. }
      unfold bind, read_frame. apply for_each_invariant; [| exact H1].
      intros column w2 H2.
      destruct (column_matches sensitive_fields_email column) eqn:He;
        [apply Hstep; [now left | rewrite Hm; discriminate | exact H2] |].
      destruct (column_matches sensitive_fields_phone column) eqn:Hp;
        [apply Hstep; [now right; left | intros _; exact Hp | exact H2] |].
      destruct (column_matches sensitive_fields_employee_id column) eqn:Hi;
        [apply Hstep; [now right; right | rewrite Hm; discriminate | exact H2]
        | exact H2].
    - destruct (String.eqb user_role "manager"); [| exact H1].
      unfold bind, read_frame. apply for_each_invariant; [| exact H1].
      intros column w2 H2.
      destruct (column_matches sensitive_fields_phone column) eqn:Hp;
        [apply Hstep; [now right; left | intros _; exact Hp | exact H2]
        | exact H2]. }
  match goal with
  | |- context [(if ?c then ?a else ?b) w1] =>
      destruct ((if c then a else b) w1) as [[[]|e] w2]
  end; exact Hloop.
Qed.

End MaskingFrames.

Section MaskingTheorems.

Import data_security.

Lemma assign_apply_length r column g w :
  length (frames (snd (assign_apply r column g w))) = length (frames w).
Proof.
  unfold assign_apply, bind, read_frame, lift.
  destruct (get_column column (frame_at w r)) as [cells|e]; [| reflexivity].
  destruct (series_apply g cells) as [masked|e]; [| reflexivity].
  simpl. apply length_insert.
Qed.

Lemma same_shape_copy df w D :
  frames w !! df = Some D ->
  same_shape D (snd (frame_copy df w)) (length (frames w)).
Proof.
  intros HD. rewrite frame_copy_run, (frame_at_lookup _ _ _ HD). simpl snd.
  unfold same_shape. rewrite frame_at_fresh. simpl frames.
  rewrite length_app. simpl. split; [lia | now split].
Qed.

(** X4. Whatever the role, the frame returned by the column mask has the
    columns of the input, in the same order, and the same rows by label:
    masking drops, adds and reorders nothing. *)
Theorem masking_keeps_shape (df : nat) (user_role : string) (w : World)
  (D : DataFrame) (r : nat) (w' : World) :
  frames w !! df = Some D ->
  apply_data_masking df user_role w = (Ok r, w') ->
  columns (frame_at w' r) = columns D
  /\ map row_label (rows (frame_at w' r)) = map row_label (rows D)
  /\ length (rows (frame_at w' r)) = length (rows D).
Proof.
  intros HD Hrun.
  assert (Hshape : columns (frame_at w' r) = columns D
                   /\ map row_label (rows (frame_at w' r))
                      = map row_label (rows D)).
  { pose proof (apply_data_masking_result df user_role w r) as Hres.
    rewrite Hrun in Hres. specialize (Hres eq_refl).
    destruct (String.eqb user_role "admin") eqn:Hadmin.
    - subst r. unfold apply_data_masking in Hrun. rewrite Hadmin in Hrun.
      injection Hrun as <-. now rewrite (frame_at_lookup _ _ _ HD).
    - subst r.
      pose proof (apply_data_masking_keeps
                    (fun w2 => same_shape D w2 (length (frames w)))
                    df user_role w Hadmin) as Hkeep.
      rewrite Hrun in Hkeep. simpl snd in Hkeep.
      destruct Hkeep as (_ & Hc & Hl); [| now apply same_shape_copy | now split].
      intros column g w2 _ _ H2. now apply assign_apply_same_shape. }
  destruct Hshape as [Hc Hl]. split; [exact Hc |]. split; [exact Hl |].
  rewrite <- (length_map row_label (rows (frame_at w' r))), Hl.
  apply length_map.
Qed.

Lemma masking_keeps_shape_witness :
  frames (world_of people) !! 0%nat = Some people
  /\ apply_data_masking 0 "viewer" (world_of people)
     = (Ok 1%nat, snd (apply_data_masking 0 "viewer" (world_of people)))
  /\ columns (frame_at (snd (apply_data_masking 0 "viewer" (world_of people)))
                1)
     = columns people.
Proof.
  split; [reflexivity |]. split; [reflexivity |].
  exact (proj1 (masking_keeps_shape 0 "viewer" (world_of people) people 1
                  (snd (apply_data_masking 0 "viewer" (world_of people)))
                  eq_refl eq_refl)).
Defined.

(** The cells of column [c] are kept by the mask when no assignment of
    the loop is to [c]. *)
Lemma masking_leaves_column df user_role w D c r w' :
  frames w !! df = Some D ->
  (forall column,
      (column_matches sensitive_fields_email column = true
       \/ column_matches sensitive_fields_phone column = true
       \/ column_matches sensitive_fields_employee_id column = true) ->
      (String.eqb user_role "manager" = true ->
       column_matches sensitive_fields_phone column = true) ->
      column <> c) ->
  apply_data_masking df user_role w = (Ok r, w') ->
  get_column c (frame_at w' r) = get_column c D.
Proof.
  intros HD Hother Hrun.
  pose proof (apply_data_masking_result df user_role w r) as Hres.
  rewrite Hrun in Hres. specialize (Hres eq_refl).
  destruct (String.eqb user_role "admin") eqn:Hadmin.
  - subst r. unfold apply_data_masking in Hrun. rewrite Hadmin in Hrun.
    injection Hrun as <-. now rewrite (frame_at_lookup _ _ _ HD).
  - subst r.
    assert (Hcopy :
              (length (frames w) < length (frames (snd (frame_copy df w))))%nat
              /\ get_column c (frame_at (snd (frame_copy df w))
                                        (length (frames w)))
                 = get_column c D).
    { rewrite frame_copy_run, (frame_at_lookup _ _ _ HD). simpl snd.
      rewrite frame_at_fresh. simpl frames. rewrite length_app. simpl.
      split; [lia | reflexivity]. }
    pose proof (apply_data_masking_keeps
                  (fun w2 =>
                     (length (frames w) < length (frames w2))%nat
                     /\ get_column c (frame_at w2 (length (frames w)))
                        = get_column c D)
                  df user_role w Hadmin) as Hkeep.
    rewrite Hrun in Hkeep. simpl snd in Hkeep.
    apply Hkeep; [| exact Hcopy].
    intros column g w2 Hsens Hman [Hlen Hcol]. split.
    + now rewrite assign_apply_length.
    + apply assign_apply_other_column;
        [now apply Hother | exact Hlen | exact Hcol].
Qed.

(** X5. Whatever the role, a column whose name matches none of the
    keyword lists for e-mail, phone and employee identifier comes out of
    the column mask with the cells it had. *)
Theorem masking_leaves_other_columns (df : nat) (user_role : string)
  (w : World) (D : DataFrame) (c : string) (r : nat) (w' : World) :
  frames w !! df = Some D ->
  not_sensitive c ->
  apply_data_masking df user_role w = (Ok r, w') ->
  get_column c (frame_at w' r) = get_column c D.
Proof.
  intros HD (He & Hp & Hi) Hrun.
  apply (masking_leaves_column df user_role w D c r w' HD); [| exact Hrun].
  intros column Hsens _ ->.
  destruct Hsens as [H | [H | H]]; congruence.
Qed.

Lemma masking_leaves_other_columns_witness :
  frames (world_of people) !! 0%nat = Some people
  /\ not_sensitive "department"
  /\ get_column "department"
       (frame_at (snd (apply_data_masking 0 "viewer" (world_of people))) 1)
     = get_column "department" people.
Proof.
  assert (Hns : not_sensitive "department") by (repeat split; reflexivity).
  split; [reflexivity |]. split; [exact Hns |].
  exact (masking_leaves_other_columns 0 "viewer" (world_of people) people
           "department" 1
           (snd (apply_data_masking 0 "viewer" (world_of people)))
           eq_refl Hns eq_refl).
Defined.

(** X6. For a manager only phone columns are masked: a column whose name
    matches no phone keyword, an e-mail column for instance, comes out
    with the cells it had. *)
Theorem manager_mask_touches_phone_only (df : nat) (w : World)
  (D : DataFrame) (c : string) (r : nat) (w' : World) :
  frames w !! df = Some D ->
  column_matches sensitive_fields_phone c = false ->
  apply_data_masking df "manager" w = (Ok r, w') ->
  get_column c (frame_at w' r) = get_column c D.
Proof.
  intros HD Hp Hrun.
  apply (masking_leaves_column df "manager" w D c r w' HD); [| exact Hrun].
  intros column _ Hman ->.
  specialize (Hman eq_refl). congruence.
Qed.

Lemma manager_mask_touches_phone_only_witness :
  frames (world_of people) !! 0%nat = Some people
  /\ column_matches sensitive_fields_phone "email" = false
  /\ get_column "email"
       (frame_at (snd (apply_data_masking 0 "manager" (world_of people))) 1)
     = get_column "email" people.
Proof.
  split; [reflexivity |]. split; [reflexivity |].
  exact (manager_mask_touches_phone_only 0 (world_of people) people "email" 1
           (snd (apply_data_masking 0 "manager" (world_of people)))
           eq_refl eq_refl eq_refl).
Defined.

(** X7. A role that is none of [admin], [manager], [viewer], [auditor]
    is not refused: the row filter and the column mask both return a new
    frame equal to the whole dataset, unfiltered and unmasked. *)
Theorem unknown_role_gets_everything (df : nat) (user_role : string)
  (user_context : Dict) (w : World) (D : DataFrame) :
  frames w !! df = Some D ->
  user_role <> "admin" -> user_role <> "manager" ->
  user_role <> "viewer" -> user_role <> "auditor" ->
  let copy :=
    (Ok (length (frames w)),
     mkWorld (frames w ++ [D]) (session_state w) (page w) (audit_log w)
             (utcnow w)) in
  filter_data_by_access_level df user_role user_context w = copy
  /\ apply_data_masking df user_role w = copy.
Proof.
  intros HD Ha Hm Hv Hu.
  apply String.eqb_neq in Ha, Hm, Hv, Hu.
  unfold filter_data_by_access_level, apply_data_masking.
  rewrite Ha, Hm, Hv, Hu. simpl orb. cbv iota.
  unfold bind. rewrite frame_copy_run, (frame_at_lookup _ _ _ HD).
  split; reflexivity.
Qed.

Lemma unknown_role_gets_everything_witness :
  frames (world_of people) !! 0%nat = Some people
  /\ "guest" <> "admin"
  /\ filter_data_by_access_level 0 "guest" boss_context (world_of people)
     = (Ok 1%nat, mkWorld [people; people] ∅ [] [] 0)
  /\ apply_data_masking 0 "guest" (world_of people)
     = (Ok 1%nat, mkWorld [people; people] ∅ [] [] 0).
Proof.
  split; [reflexivity |]. split; [discriminate |].
  apply (unknown_role_gets_everything 0 "guest" boss_context
           (world_of people) people);
    [reflexivity | discriminate | discriminate | discriminate | discriminate].
Defined.

End MaskingTheorems.

(* ===================================================================== *)
(** * Properties of the export sanitization and of the permission check *)
(* ===================================================================== *)

Section Sanitization.

Import data_security.

Lemma apply_data_masking_same_shape df user_role w D r w' :
  frames w !! df = Some D ->
  apply_data_masking df user_role w = (Ok r, w') ->
  same_shape D w' r.
Proof.
  intros HD Hrun.
  pose proof (apply_data_masking_result df user_role w r) as Hres.
  rewrite Hrun in Hres. specialize (Hres eq_refl).
  destruct (String.eqb user_role "admin") eqn:Hadmin.
  - subst r. unfold apply_data_masking in Hrun. rewrite Hadmin in Hrun.
    injection Hrun as <-. unfold same_shape.
    rewrite (frame_at_lookup _ _ _ HD).
    split; [now apply lookup_lt_Some in HD | now split].
  - subst r.
    pose proof (apply_data_masking_keeps
                  (fun w2 => same_shape D w2 (length (frames w)))
                  df user_role w Hadmin) as Hkeep.
    rewrite Hrun in Hkeep. simpl snd in Hkeep.
    apply Hkeep; [| now apply same_shape_copy].
    intros column g w2 _ _ H2. now apply assign_apply_same_shape.
Qed.

Lemma frame_at_insert (fs : list DataFrame) r f s p a t :
  (r < length fs)%nat -> frame_at (mkWorld (<[r := f]> fs) s p a t) r = f.
Proof.
  intros Hr. unfold frame_at. simpl. now rewrite list_lookup_insert_eq.
Qed.

Lemma keep_flagged_filter (remove : string -> bool) (cols : list string) :
  keep_flagged (map (fun c => negb (remove c)) cols) cols
  = filter (fun c => remove c = false) cols.
Proof.
  induction cols as [|c cols IH]; [reflexivity |].
  rewrite filter_cons. simpl map. destruct (remove c) eqn:Hc.
  - rewrite decide_False by discriminate. simpl. exact IH.
  - rewrite decide_True by reflexivity. simpl. now rewrite IH.
Qed.

Lemma filter_none_all (remove : string -> bool) (cols : list string) :
  filter (fun c => remove c = true) cols = [] ->
  filter (fun c => remove c = false) cols = cols.
Proof.
  induction cols as [|c cols IH]; [reflexivity |].
  rewrite !filter_cons. destruct (remove c) eqn:Hc.
  - rewrite decide_True by reflexivity. discriminate.
  - rewrite decide_False by discriminate.
    rewrite decide_True by reflexivity. intros H. now rewrite IH.
Qed.

(** The frame that goes into the mask: the copy, or the copy without its
    internal columns. *)
Lemma sanitize_export_data_steps df export_format user_role w D :
  frames w !! df = Some D ->
  exists r2 w2 D1,
    frames w2 !! r2 = Some D1
    /\ columns D1
       = filter (fun c => column_matches internal_fields c = false)
                (columns D)
    /\ map row_label (rows D1) = map row_label (rows D)
    /\ extends (frames w) w2
    /\ (length (frames w) <= r2)%nat
    /\ sanitize_export_data df export_format user_role w
       = match apply_data_masking r2 user_role w2 with
         | (Ok r3, w3) =>
             if String.eqb (py.lower export_format) "csv" then
               (Ok r3,
                snd (write_frame r3
                       (mkFrame (columns (frame_at w3 r3))
                          (rows (frame_at w3 r3))
                          (assoc_set "export_info"
                             [("exported_by", PStr user_role);
                              ("export_time", PInt (utcnow w3));
                              ("data_classification",
                               PStr "CONFIDENTIAL - Red Hat Internal")]
                             (attrs (frame_at w3 r3))))
                       w3))
             else (Ok r3, w3)
         | (Raise e, w3) => (Raise e, w3)
         end.
Proof.
  intros HD. unfold sanitize_export_data.
  unfold bind at 1. rewrite frame_copy_run, (frame_at_lookup _ _ _ HD).
  unfold bind at 1. unfold read_frame at 1. rewrite frame_at_fresh.
  set (w1 := mkWorld (frames w ++ [D]) _ _ _ _).
  destruct (filter (fun col => column_matches internal_fields col = true)
                   (columns D)) as [|c0 cs] eqn:Hrem.
  - exists (length (frames w)), w1, D.
    split; [apply lookup_fresh |].
    split; [symmetry; now apply filter_none_all |].
    split; [reflexivity |].
    split; [now exists [D] |].
    split; [lia |].
    unfold bind at 1. unfold ret at 1. unfold bind at 1.
    destruct (apply_data_masking (length (frames w)) user_role w1)
      as [[r3|e] w3]; [| reflexivity].
    unfold bind at 1.
    destruct (String.eqb (py.lower export_format) "csv"); reflexivity.
  - exists (length (frames w1)),
      (mkWorld (frames w1
                ++ [drop_columns (column_matches internal_fields) D])
               (session_state w1) (page w1) (audit_log w1) (utcnow w1)),
      (drop_columns (column_matches internal_fields) D).
    split; [apply lookup_fresh |].
    split; [apply keep_flagged_filter |].
    split; [simpl; rewrite map_map; reflexivity |].
    split.
    { exists [D; drop_columns (column_matches internal_fields) D].
      simpl. now rewrite <- app_assoc. }
    split; [simpl; rewrite length_app; lia |].
    unfold bind at 1. unfold new_frame at 1. unfold bind at 1.
    match goal with
    | |- context [apply_data_masking ?r ?u ?w0] =>
        destruct (apply_data_masking r u w0) as [[r3|e] w3]; [| reflexivity]
    end.
    unfold bind at 1.
    destruct (String.eqb (py.lower export_format) "csv"); reflexivity.
Qed.

(** X8. When the export sanitization returns, the frame it returns has
    exactly the columns of the input whose lower-cased name contains none
    of [password], [hash], [session], [token], [secret], in their order,
    and the same rows by label; the input frame is left as it was. *)
Theorem sanitize_removes_internal_columns (df : nat)
  (export_format user_role : string) (w : World) (D : DataFrame)
  (r : nat) (w' : World) :
  frames w !! df = Some D ->
  sanitize_export_data df export_format user_role w = (Ok r, w') ->
  columns (frame_at w' r)
  = filter (fun c => column_matches internal_fields c = false) (columns D)
  /\ (forall c, c ∈ columns (frame_at w' r) ->
                column_matches internal_fields c = false)
  /\ map row_label (rows (frame_at w' r)) = map row_label (rows D)
  /\ frames w' !! df = Some D.
Proof.
  intros HD Hrun.
  destruct (sanitize_export_data_steps df export_format user_role w D HD)
    as (r2 & w2 & D1 & HD1 & Hcols & Hlabels & Hext & Hr2 & Hsteps).
  rewrite Hsteps in Hrun. clear Hsteps.
  destruct (apply_data_masking r2 user_role w2) as [[r3|e] w3] eqn:Hmask;
    [| discriminate].
  destruct (apply_data_masking_same_shape r2 user_role w2 D1 r3 w3 HD1 Hmask)
    as (Hr3 & Hc3 & Hl3).
  assert (Hdf3 : frames w3 !! df = Some D).
  { pose proof (apply_data_masking_extends r2 user_role w2) as Hext2.
    rewrite Hmask in Hext2. simpl snd in Hext2.
    eapply extends_lookup; [exact Hext2 |].
    eapply extends_lookup; [exact Hext | exact HD]. }
  assert (Hgoal : columns (frame_at w' r)
                  = filter (fun c => column_matches internal_fields c = false)
                           (columns D)
                  /\ map row_label (rows (frame_at w' r))
                     = map row_label (rows D)
                  /\ frames w' !! df = Some D).
  { destruct (String.eqb (py.lower export_format) "csv").
    - injection Hrun as <- <-.
      rewrite !frame_at_insert by exact Hr3. simpl columns. simpl rows.
      split; [congruence |]. split; [congruence |].
      simpl frames.
      rewrite list_lookup_insert_ne; [exact Hdf3 |].
      pose proof (apply_data_masking_result r2 user_role w2 r3) as Hres.
      rewrite Hmask in Hres. specialize (Hres eq_refl).
      apply lookup_lt_Some in HD.
      pose proof (extends_length _ _ Hext) as Hlen.
      destruct (String.eqb user_role "admin"); lia.
    - injection Hrun as <- <-. split; [congruence |]. split; [congruence |].
      exact Hdf3. }
  destruct Hgoal as (H1 & H2 & H3).
  split; [exact H1 |]. split; [| now split].
  intros c Hc. rewrite H1 in Hc. now apply list_elem_of_filter in Hc as [Hc _].
Qed.

End Sanitization.

Lemma sanitize_removes_internal_columns_witness :
  frames (world_of accounts) !! 0%nat = Some accounts
  /\ data_security.sanitize_export_data 0 "csv" "manager" (world_of accounts)
     = (Ok 3%nat,
        snd (data_security.sanitize_export_data 0 "csv" "manager"
               (world_of accounts)))
  /\ columns
       (frame_at
          (snd (data_security.sanitize_export_data 0 "csv" "manager"
                  (world_of accounts))) 3)
     = ["uid"; "email"; "phone"].
Proof.
  split; [reflexivity |]. split; [reflexivity |].
  exact (proj1 (sanitize_removes_internal_columns 0 "csv" "manager"
                  (world_of accounts) accounts 3
                  (snd (data_security.sanitize_export_data 0 "csv" "manager"
                          (world_of accounts)))
                  eq_refl eq_refl)).
Defined.

Section Permissions.

Import data_security.

Lemma any_permission_spec (required perms : list string) :
  exists b,
    any_permission required (PList perms) = Ok b
    /\ (b = true <-> exists p, p ∈ required /\ p ∈ perms).
Proof.
  induction required as [|q required IH].
  - exists false. split; [reflexivity |]. split; [discriminate |].
    intros (p & Hp & _). now apply not_elem_of_nil in Hp.
  - simpl. destruct (bool_decide (q ∈ perms)) eqn:Hq.
    + exists true. split; [reflexivity |]. split; [| reflexivity].
      intros _. exists q. split; [now left |].
      now apply bool_decide_eq_true in Hq.
    + destruct IH as (b & -> & Hb). exists b. split; [reflexivity |].
      rewrite Hb. apply bool_decide_eq_false in Hq. split.
      * intros (p & Hp & Hin). exists p. split; [now right | exact Hin].
      * intros (p & Hp & Hin). exists p.
        apply elem_of_cons in Hp as [-> | Hp]; [contradiction | now split].
Qed.

(** X9. On a list of permissions the permission check never raises and
    grants exactly when the list holds at least one of the permissions
    required for the category; the role passed to it plays no part. *)
Theorem permission_check_is_intersection (data_type user_role : string)
  (perms : list string) :
  exists b,
    check_data_access_permission data_type user_role (PList perms) = Ok b
    /\ (b = true
        <-> exists p, p ∈ required_permissions data_type /\ p ∈ perms)
    /\ forall other_role,
         check_data_access_permission data_type other_role (PList perms)
         = Ok b.
Proof.
  unfold check_data_access_permission.
  destruct (any_permission_spec (required_permissions data_type) perms)
    as (b & Hb & Hiff).
  exists b. split; [exact Hb |]. split; [exact Hiff |].
  intros _. exact Hb.
Qed.

Lemma assoc_get_unknown {B} (k : string) (default : B)
  (l : list (string * B)) :
  (forall v, (k, v) ∉ l) -> assoc_get k default l = default.
Proof.
  induction l as [|[k' v'] l IH]; intros Hno; [reflexivity |].
  simpl. destruct (String.eqb_spec k' k) as [-> | Hne].
  - exfalso. apply (Hno v'). now left.
  - apply IH. intros v Hv. apply (Hno v). now right.
Qed.

(** X10. A category of data that the table does not list is not open to
    everybody: it is granted exactly to the holders of [view_all]. *)
Theorem unknown_category_requires_view_all (data_type user_role : string)
  (perms : list string) :
  data_type ∉ map fst permission_map ->
  check_data_access_permission data_type user_role (PList perms)
  = Ok (bool_decide ("view_all" ∈ perms)).
Proof.
  intros Hno. unfold check_data_access_permission.
  rewrite assoc_get_unknown.
  - simpl. now destruct (bool_decide ("view_all" ∈ perms)).
  - intros v Hv. apply Hno. apply list_elem_of_fmap. now exists (data_type, v).
Qed.

Lemma unknown_category_requires_view_all_witness :
  ("salaries" ∉ map fst permission_map)
  /\ check_data_access_permission "salaries" "manager"
       (PList ["view_team"; "export_data"; "view_reports"])
     = Ok false.
Proof.
  assert (Hno : "salaries" ∉ map fst permission_map).
  { intros H. simpl in H.
    repeat (apply elem_of_cons in H as [H|H]; [discriminate |]).
    now apply not_elem_of_nil in H. }
  split; [exact Hno |].
  exact (unknown_category_requires_view_all "salaries" "manager"
           ["view_team"; "export_data"; "view_reports"] Hno).
Defined.

End Permissions.

(* ===================================================================== *)
(** * Properties of the search-parameter validation *)
(* ===================================================================== *)

Section SearchParameters.

Import search.

Lemma strip_dangerous_clean s a :
  py.contains_char a (strip_dangerous s) = true -> is_dangerous a = false.
Proof.
  induction s as [|b s IH]; simpl; [discriminate |].
  destruct (is_dangerous b) eqn:Hb; [exact IH |].
  simpl. destruct (Ascii.eqb b a) eqn:Hba; [| exact IH].
  intros _. apply Ascii.eqb_eq in Hba. now subst.
Qed.

Lemma contains_char_take a n s :
  py.contains_char a (py.take n s) = true -> py.contains_char a s = true.
Proof.
  revert s. induction n as [|n IH]; intros s; [discriminate |].
  destruct s as [|b s]; simpl; [discriminate |].
  destruct (Ascii.eqb b a); [reflexivity | apply IH].
Qed.

Lemma length_take_le n s : (String.length (py.take n s) <= n)%nat.
Proof.
  revert s. induction n as [|n IH]; intros s; [simpl; lia |].
  destruct s as [|b s]; simpl; [lia |]. specialize (IH s). lia.
Qed.

Lemma strip_dangerous_fixed s :
  (forall a, py.contains_char a s = true -> is_dangerous a = false) ->
  strip_dangerous s = s.
Proof.
  induction s as [|b s IH]; intros H; [reflexivity |]. simpl.
  rewrite (H b) by (simpl; now rewrite Ascii.eqb_refl).
  rewrite IH; [reflexivity |].
  intros a Ha. apply H. simpl. rewrite Ha. now destruct (Ascii.eqb b a).
Qed.

Lemma sanitize_value_idempotent v :
  sanitize_value (sanitize_value v) = sanitize_value v.
Proof.
  destruct v as [s| |]; try reflexivity. unfold sanitize_value. f_equal.
  rewrite strip_dangerous_fixed.
  - apply take_take.
  - intros a Ha. apply contains_char_take in Ha.
    now apply strip_dangerous_clean in Ha.
Qed.

(** X11. The validated search parameters have the keys of the input; a
    text value comes out with at most 100 characters and without any of
    the six removed characters; a value that is no text comes out as it
    was. *)
Theorem validated_parameters_are_clean (search_params : gmap string Value)
  (key : string) :
  (validate_search_parameters search_params !! key = None
   <-> search_params !! key = None)
  /\ (forall s,
        search_params !! key = Some (VStr s) ->
        exists s',
          validate_search_parameters search_params !! key = Some (VStr s')
          /\ (String.length s' <= 100)%nat
          /\ forall a, py.contains_char a s' = true -> is_dangerous a = false)
  /\ (forall v,
        search_params !! key = Some v ->
        (forall s, v <> VStr s) ->
        validate_search_parameters search_params !! key = Some v).
Proof.
  unfold validate_search_parameters. rewrite lookup_fmap.
  split; [| split].
  - destruct (search_params !! key); simpl; split; congruence.
  - intros s ->. exists (py.take 100 (strip_dangerous s)).
    split; [reflexivity |].
    split; [apply length_take_le |].
    intros a Ha. apply contains_char_take in Ha.
    now apply strip_dangerous_clean in Ha.
  - intros v -> Hv. destruct v as [s| |]; [| reflexivity | reflexivity].
    now destruct (Hv s).
Qed.

(** X12. Validating search parameters that were validated already
    changes nothing. *)
Theorem validation_is_idempotent (search_params : gmap string Value) :
  validate_search_parameters (validate_search_parameters search_params)
  = validate_search_parameters search_params.
Proof.
  unfold validate_search_parameters. rewrite <- map_fmap_compose.
  apply map_fmap_ext. intros k v _. apply sanitize_value_idempotent.
Qed.

End SearchParameters.

(* ===================================================================== *)
(** * Properties of the audit sink *)
(* ===================================================================== *)

Section AuditSink.

Import audit_logger.

(** X13. When the session holds no user or a user dictionary,
    [log_event] appends exactly one line to the audit file and changes
    nothing else: the earlier lines stay; the line carries the event
    type, the details and the level text it was given, the time of the
    clock, and the address and the role of the user of the session,
    [anonymous] and [none] when the user has none; it is written at the
    level that the level text names in any letter case, and at level
    [INFO] when the text names none of [WARNING], [ERROR], [CRITICAL]. *)
Theorem log_event_appends_one_line (kind : string)
  (payload : list (string * PyVal)) (level : string) (w : World)
  (user : Dict) :
  st.session_user w = (Ok user, w) ->
  exists line,
    log_event kind payload level w
    = (Ok tt,
       mkWorld (frames w) (session_state w) (page w) (audit_log w ++ [line])
               (utcnow w))
    /\ event_type (message line) = kind
    /\ details (message line) = payload
    /\ severity (message line) = level
    /\ timestamp (user_context (message line)) = utcnow w
    /\ user_email (user_context (message line))
       = dict_get user "email" (PStr "anonymous")
    /\ user_role (user_context (message line))
       = dict_get user "role" (PStr "none")
    /\ (py.upper level = "WARNING" -> levelname line = WARNING)
    /\ (py.upper level = "ERROR" -> levelname line = ERROR)
    /\ (py.upper level = "CRITICAL" -> levelname line = CRITICAL)
    /\ (py.upper level <> "WARNING" -> py.upper level <> "ERROR" ->
        py.upper level <> "CRITICAL" -> levelname line = INFO).
Proof.
  intros Huser. unfold log_event, get_user_context.
  unfold bind at 1. unfold bind at 1. rewrite Huser.
  unfold bind, st.session_get, datetime_utcnow, ret.
  destruct (String.eqb_spec (py.upper level) "WARNING") as [Hw | Hw];
    [| destruct (String.eqb_spec (py.upper level) "ERROR") as [He | He];
       [| destruct (String.eqb_spec (py.upper level) "CRITICAL")
            as [Hc | Hc]]];
    (eexists; split; [reflexivity |]);
    repeat (split; [reflexivity |]);
    repeat split; intros;
    first [reflexivity | congruence].
Qed.

Lemma log_event_appends_one_line_witness :
  st.session_user (world_at 5) = (Ok ∅, world_at 5)
  /\ exists line,
       log_event "LDAP_QUERY" [("query_type", PStr "search")] "debug"
         (world_at 5)
       = (Ok tt, mkWorld [] ∅ [] [line] 5)
       /\ levelname line = INFO.
Proof.
  split; [reflexivity |].
  destruct (log_event_appends_one_line "LDAP_QUERY"
              [("query_type", PStr "search")] "debug" (world_at 5) ∅ eq_refl)
    as (line & Hrun & _ & _ & _ & _ & _ & _ & _ & _ & _ & Hinfo).
  exists line. split; [exact Hrun |].
  apply Hinfo; discriminate.
Defined.

(** X14. An export is always recorded at level [WARNING]: when the
    session holds no user or a user dictionary, [log_data_export] appends
    one line of type [DATA_EXPORT] at that level, with the number of
    records and the format it was given. *)
Theorem log_data_export_is_a_warning (data_type export_format : string)
  (record_count : nat) (w : World) (user : Dict) :
  st.session_user w = (Ok user, w) ->
  exists line,
    log_data_export data_type record_count export_format w
    = (Ok tt,
       mkWorld (frames w) (session_state w) (page w) (audit_log w ++ [line])
               (utcnow w))
    /\ levelname line = WARNING
    /\ event_type (message line) = "DATA_EXPORT"
    /\ details (message line)
       = [("data_type", PStr data_type);
          ("record_count", PInt (Z.of_nat record_count));
          ("export_format", PStr export_format)].
Proof.
  intros Huser. unfold log_data_export, log_event, get_user_context.
  unfold bind at 1. unfold bind at 1. rewrite Huser.
  unfold bind, st.session_get, datetime_utcnow, ret.
  eexists. split; [reflexivity |]. repeat split.
Qed.

Lemma log_data_export_is_a_warning_witness :
  st.session_user (session_of admin_user)
  = (Ok admin_user, session_of admin_user)
  /\ exists line,
       log_data_export "people_data" 4 "csv" (session_of admin_user)
       = (Ok tt,
          mkWorld [people] {[ "user" := SDict admin_user ]} [] [line] 0)
       /\ levelname line = WARNING.
Proof.
  split; [reflexivity |].
  destruct (log_data_export_is_a_warning "people_data" "csv" 4
              (session_of admin_user) admin_user eq_refl)
    as (line & Hrun & Hlevel & _).
  exists line. split; [exact Hrun | exact Hlevel].
Defined.

(** X15. The level of a security event is read without regard to letter
    case, the flag for investigation is not: a severity that spells
    [ERROR] in another letter case is written at level [ERROR] and
    marked as requiring no investigation. *)
Theorem security_event_flag_is_case_sensitive (description sev : string)
  (w : World) (user : Dict) :
  st.session_user w = (Ok user, w) ->
  py.upper sev = "ERROR" ->
  sev <> "ERROR" ->
  exists line,
    log_security_event description sev w
    = (Ok tt,
       mkWorld (frames w) (session_state w) (page w) (audit_log w ++ [line])
               (utcnow w))
    /\ levelname line = ERROR
    /\ details (message line)
       = [("description", PStr description);
          ("requires_investigation", PBool false)].
Proof.
  intros Huser Hup Hne.
  assert (Hflag : bool_decide (sev ∈ ["ERROR"; "CRITICAL"]) = false).
  { apply bool_decide_eq_false. intros H.
    apply elem_of_cons in H as [H|H]; [contradiction |].
    apply elem_of_cons in H as [H|H];
      [subst sev; discriminate Hup | now apply not_elem_of_nil in H]. }
  unfold log_security_event, log_event, get_user_context.
  unfold bind at 1. unfold bind at 1. rewrite Huser.
  unfold bind, st.session_get, datetime_utcnow, ret.
  rewrite Hup, Hflag.
  eexists. split; [reflexivity |]. split; reflexivity.
Qed.

Lemma security_event_flag_is_case_sensitive_witness :
  st.session_user (world_at 5) = (Ok ∅, world_at 5)
  /\ py.upper "error" = "ERROR"
  /\ "error" <> "ERROR"
  /\ exists line,
       log_security_event "Data loading error" "error" (world_at 5)
       = (Ok tt, mkWorld [] ∅ [] [line] 5)
       /\ levelname line = ERROR
       /\ details (message line)
          = [("description", PStr "Data loading error");
             ("requires_investigation", PBool false)].
Proof.
  split; [reflexivity |]. split; [reflexivity |]. split; [discriminate |].
  apply (security_event_flag_is_case_sensitive "Data loading error" "error"
           (world_at 5) ∅);
    [reflexivity | reflexivity | discriminate].
Defined.

End AuditSink.

(* ===================================================================== *)
(** * More on the local session authenticator *)
(* ===================================================================== *)

Section LocalSession.

Variable secret_key : string.
Variable session_timeout : Z.
Variable hs256 : string -> Claims -> Z.

Lemma table_get_cons {B} (k k' : string) (v : B) (l : list (string * B)) :
  auth.table_get k ((k', v) :: l)
  = if String.eqb k' k then Some v else auth.table_get k l.
Proof. reflexivity. Qed.

Lemma table_get_nil {B} (k : string) :
  auth.table_get k (@nil (string * B)) = None.
Proof. reflexivity. Qed.

(** X16. [check_password] accepts exactly the pairs of the password
    table: an unknown address and a wrong password for a known address
    are both answered with [False]. *)
Theorem check_password_accepts_stored_pairs (email password : string) :
  auth.check_password email password = true
  <-> (email, password) ∈ auth.demo_passwords.
Proof.
  unfold auth.check_password, auth.authorized_users, auth.demo_passwords.
  rewrite !table_get_cons, !table_get_nil.
  assert (Hin : forall P : Prop,
             ((email, password) ∈ [("crizzo@redhat.com", "admin123");
                                    ("demo@redhat.com", "demo123")] -> P)
             <-> ((email = "crizzo@redhat.com" /\ password = "admin123" -> P)
                  /\ (email = "demo@redhat.com" /\ password = "demo123"
                      -> P))).
  { intros P. rewrite !elem_of_cons. split.
    - intros H. split; intros [-> ->]; apply H; [now left | now right; left].
    - intros [H1 H2] [H | [H | H]];
        [injection H as -> ->; now apply H1
        | injection H as -> ->; now apply H2
        | now apply not_elem_of_nil in H]. }
  destruct (String.eqb_spec "crizzo@redhat.com" email) as [Hc | Hc].
  - rewrite bool_decide_eq_true. split.
    + intros [= <-]. subst email. now left.
    + apply Hin. split; intros [He Hp]; [now subst | congruence].
  - destruct (String.eqb_spec "demo@redhat.com" email) as [Hd | Hd].
    + rewrite bool_decide_eq_true. split.
      * intros [= <-]. subst email. right. now left.
      * apply Hin. split; intros [He Hp]; [congruence | now subst].
    + split; [discriminate |].
      apply Hin. split; intros [He Hp]; congruence.
Qed.

(** The token that [create_session_token] issues at second [now]. *)
Lemma create_session_token_run (email : string) (w : World) :
  auth.create_session_token secret_key session_timeout hs256 email w
  = (Ok (auth.jwt_encode hs256
           (mkClaims (Some email) (Some (utcnow w + 60 * session_timeout)%Z)
                     (Some (utcnow w)) None None None)
           secret_key),
     w).
Proof. reflexivity. Qed.

Lemma verify_issued_token (email : string) (user : Dict) (issued : Z)
  (w2 : World) :
  auth.table_get email auth.authorized_users = Some user ->
  (issued <= utcnow w2)%Z ->
  (utcnow w2 < issued + 60 * session_timeout)%Z ->
  auth.verify_session_token secret_key hs256
    (auth.jwt_encode hs256
       (mkClaims (Some email) (Some (issued + 60 * session_timeout)%Z)
                 (Some issued) None None None)
       secret_key)
    w2
  = (Ok (Some user), w2).
Proof.
  intros Huser Hle Hlt.
  unfold auth.verify_session_token, bind, datetime_utcnow.
  unfold auth.jwt_encode, auth.jwt_decode.
  rewrite bool_decide_eq_true_2 by (now left).
  rewrite Z.eqb_refl. cbn [negb claim_iat claim_exp].
  replace (utcnow w2 <? issued)%Z with false
    by (symmetry; apply Z.ltb_ge; lia).
  replace (issued + 60 * session_timeout <=? utcnow w2)%Z with false
    by (symmetry; apply Z.leb_gt; lia).
  cbn [claim_email]. now rewrite Huser.
Qed.

(** X17. A token issued for a known user verifies, at any moment from
    its issue until its expiry, to the record of that user, and the
    verification leaves the world as it is. *)
Theorem issued_token_verifies (email : string) (user : Dict)
  (w w2 : World) :
  auth.table_get email auth.authorized_users = Some user ->
  (utcnow w <= utcnow w2)%Z ->
  (utcnow w2 < utcnow w + 60 * session_timeout)%Z ->
  exists token,
    auth.create_session_token secret_key session_timeout hs256 email w
    = (Ok token, w)
    /\ auth.verify_session_token secret_key hs256 token w2
       = (Ok (Some user), w2).
Proof.
  intros Huser Hle Hlt. eexists. split; [apply create_session_token_run |].
  now apply verify_issued_token.
Qed.

(** X18. A token that names another algorithm than [HS256], or whose
    signature is not the one of its claims under the server key, is
    refused with the message for invalid sessions, whatever its claims
    say. *)
Theorem forged_token_is_refused (alg : string) (payload : Claims)
  (signature : Z) (w : World) :
  alg <> "HS256" \/ signature <> hs256 secret_key payload ->
  auth.verify_session_token secret_key hs256 (Jws alg payload signature) w
  = (Ok None,
     mkWorld (frames w) (session_state w)
             (page w ++ [StError "Invalid session. Please log in again."])
             (audit_log w) (utcnow w)).
Proof.
  intros Hforged.
  unfold auth.verify_session_token, bind, datetime_utcnow, auth.jwt_decode.
  destruct (bool_decide (alg ∈ ["HS256"])) eqn:Halg; [| reflexivity].
  cbn [negb].
  destruct (Z.eqb_spec signature (hs256 secret_key payload)) as [Hs | Hs];
    [| reflexivity].
  exfalso. destruct Hforged as [Ha | Hb]; [| contradiction].
  apply bool_decide_eq_true in Halg.
  apply elem_of_cons in Halg as [-> | H]; [contradiction |].
  now apply not_elem_of_nil in H.
Qed.

End LocalSession.

Lemma issued_token_verifies_witness :
  auth.table_get "demo@redhat.com" auth.authorized_users = Some demo_user
  /\ (utcnow (world_at 5) <= utcnow (world_at 7))%Z
  /\ (utcnow (world_at 7) < utcnow (world_at 5) + 60 * 1)%Z
  /\ exists token,
       auth.create_session_token "k" 1 example_hs256 "demo@redhat.com"
         (world_at 5)
       = (Ok token, world_at 5)
       /\ auth.verify_session_token "k" example_hs256 token (world_at 7)
          = (Ok (Some demo_user), world_at 7).
Proof.
  split; [reflexivity |]. split; [discriminate |]. split; [reflexivity |].
  apply (issued_token_verifies "k" 1 example_hs256 "demo@redhat.com"
           demo_user (world_at 5) (world_at 7));
    [reflexivity | discriminate | reflexivity].
Defined.

Lemma forged_token_is_refused_witness :
  ("none" <> "HS256" \/ 0 <> example_hs256 "k" demo_claims)
  /\ auth.verify_session_token "k" example_hs256 (Jws "none" demo_claims 0)
       (world_at 7)
     = (Ok None,
        mkWorld [] ∅ [StError "Invalid session. Please log in again."] [] 7).
Proof.
  assert (H : "none" <> "HS256" \/ 0 <> example_hs256 "k" demo_claims)
    by (left; discriminate).
  split; [exact H |].
  exact (forged_token_is_refused "k" example_hs256 "none" demo_claims 0
           (world_at 7) H).
Defined.

Section SessionLifetime.

Variable secret_key : string.
Variable session_timeout : Z.
Variable hs256 : string -> Claims -> Z.

Lemma clear_key_run (k : string) (w : World) :
  rh_sso_auth.clear_key k w
  = (Ok tt,
     mkWorld (frames w) (delete k (session_state w)) (page w) (audit_log w)
             (utcnow w)).
Proof.
  unfold rh_sso_auth.clear_key, bind, st.session_has.
  destruct (bool_decide (is_Some (session_state w !! k))) eqn:Hk;
    [reflexivity |].
  apply bool_decide_eq_false in Hk.
  rewrite delete_id.
  - now destruct w.
  - destruct (session_state w !! k) eqn:Hl; [| reflexivity].
    exfalso. apply Hk. now eexists.
Qed.

Lemma logout_run (w : World) :
  auth_session.logout w
  = (Raise RerunException,
     mkWorld (frames w)
             (delete "user" (delete "auth_token" (session_state w)))
             (page w) (audit_log w) (utcnow w)).
Proof.
  unfold auth_session.logout. cbn [for_each].
  unfold bind at 1. unfold bind at 1. rewrite clear_key_run.
  unfold bind at 1. rewrite clear_key_run. reflexivity.
Qed.

Lemma verify_expired_run alg payload signature exp w :
  claim_exp payload = Some exp ->
  (exp <= utcnow w)%Z ->
  exists msg,
    auth.verify_session_token secret_key hs256 (Jws alg payload signature) w
    = (Ok None,
       mkWorld (frames w) (session_state w) (page w ++ [StError msg])
               (audit_log w) (utcnow w))
    /\ (msg = "Session expired. Please log in again."
        \/ msg = "Invalid session. Please log in again.").
Proof.
  intros Hexp Hle. unfold auth.verify_session_token, bind, datetime_utcnow.
  unfold auth.jwt_decode. rewrite Hexp.
  destruct (negb (bool_decide (alg ∈ ["HS256"])));
    [eexists; split; [reflexivity | now right] |].
  destruct (negb (signature =? hs256 secret_key payload)%Z);
    [eexists; split; [reflexivity | now right] |].
  replace (exp <=? utcnow w)%Z with true by (symmetry; apply Z.leb_le; lia).
  destruct (claim_iat payload) as [iat|];
    [| eexists; split; [reflexivity | now left]].
  destruct (utcnow w <? iat)%Z; eexists; (split; [reflexivity |]);
    [now right | now left].
Qed.

(** X19. A session whose token has reached its expiry is destroyed by
    [is_authenticated]: one message is shown, that the session has
    expired or that it is invalid, the token and the user are removed
    from the session, every other entry stays, and the script is
    rerun. *)
Theorem expired_session_is_destroyed (alg : string) (payload : Claims)
  (signature : Z) (exp : Z) (w : World) :
  session_state w !! "auth_token"
  = Some (SPy (PJwt (Jws alg payload signature))) ->
  claim_exp payload = Some exp ->
  (exp <= utcnow w)%Z ->
  exists w' msg,
    auth_session.is_authenticated secret_key hs256 w
    = (Raise RerunException, w')
    /\ page w' = page w ++ [StError msg]
    /\ (msg = "Session expired. Please log in again."
        \/ msg = "Invalid session. Please log in again.")
    /\ session_state w' !! "auth_token" = None
    /\ session_state w' !! "user" = None
    /\ forall k, k <> "auth_token" -> k <> "user" ->
                 session_state w' !! k = session_state w !! k.
Proof.
  intros Htok Hexp Hlt.
  destruct (verify_expired_run alg payload signature exp w Hexp Hlt)
    as (msg & Hverify & Hmsg).
  unfold auth_session.is_authenticated.
  unfold bind at 1. unfold st.session_has at 1.
  rewrite bool_decide_eq_true_2 by (rewrite Htok; now eexists).
  cbn [negb].
  unfold bind at 1. unfold st.session_get at 1. rewrite Htok.
  cbn [auth_session.stored_token].
  unfold bind at 1. rewrite Hverify.
  unfold bind at 1. rewrite logout_run.
  eexists _, msg. split; [reflexivity |]. cbn [session_state page].
  split; [reflexivity |]. split; [exact Hmsg |].
  split; [| split].
  - rewrite lookup_delete_ne by discriminate. apply lookup_delete_eq.
  - apply lookup_delete_eq.
  - intros k Hk1 Hk2.
    rewrite lookup_delete_ne by congruence.
    now rewrite lookup_delete_ne by congruence.
Qed.

(** What a successful login leaves behind. *)
Lemma login_form_success_run (email password : string) (user : Dict)
  (w : World) :
  auth.check_password email password = true ->
  auth.table_get email auth.authorized_users = Some user ->
  exists greeting,
    auth.login_form secret_key session_timeout hs256 email password true w
    = (Raise RerunException,
       mkWorld (frames w)
         (<["user" := SDict user]>
            (<["auth_token" :=
                 SPy (PJwt (auth.jwt_encode hs256
                              (mkClaims (Some email)
                                 (Some (utcnow w + 60 * session_timeout)%Z)
                                 (Some (utcnow w)) None None None)
                              secret_key))]>
               (session_state w)))
         (page w ++ [StSuccess greeting]) (audit_log w) (utcnow w)).
Proof.
  intros Hpw Huser. unfold auth.login_form. rewrite Hpw.
  unfold bind at 1. rewrite create_session_token_run.
  unfold bind at 1. unfold st.session_set at 1. rewrite Huser.
  eexists. reflexivity.
Qed.

Lemma accepted_user_is_known (email password : string) :
  auth.check_password email password = true ->
  exists user,
    auth.table_get email auth.authorized_users = Some user
    /\ user <> ∅
    /\ user !! "email" = None.
Proof.
  unfold auth.check_password, auth.authorized_users.
  rewrite !table_get_cons, !table_get_nil.
  destruct (String.eqb "crizzo@redhat.com" email).
  - intros _. eexists. split; [reflexivity |]. split; [| reflexivity].
    intros H. apply (f_equal (fun m : Dict => m !! "name")) in H.
    discriminate H.
  - destruct (String.eqb "demo@redhat.com" email); [| discriminate].
    intros _. eexists. split; [reflexivity |]. split; [| reflexivity].
    intros H. apply (f_equal (fun m : Dict => m !! "name")) in H.
    discriminate H.
Qed.

(** X20. After a successful login the visitor is authenticated: the
    form stores a token and the user and reruns the script, and on every
    later run that finds the session as the form left it, from the
    moment of the login until the session timeout has passed,
    [is_authenticated] answers [True]. *)
Theorem login_then_authenticated (email password : string) (w : World) :
  auth.check_password email password = true ->
  exists w',
    auth.login_form secret_key session_timeout hs256 email password true w
    = (Raise RerunException, w')
    /\ is_Some (session_state w' !! "auth_token")
    /\ is_Some (session_state w' !! "user")
    /\ forall w2,
         session_state w2 = session_state w' ->
         (utcnow w <= utcnow w2)%Z ->
         (utcnow w2 < utcnow w + 60 * session_timeout)%Z ->
         fst (auth_session.is_authenticated secret_key hs256 w2) = Ok true.
Proof.
  intros Hpw.
  destruct (accepted_user_is_known email password Hpw)
    as (user & Huser & Hne & _).
  destruct (login_form_success_run email password user w Hpw Huser)
    as [greeting Hrun].
  eexists. split; [exact Hrun |]. cbn [session_state].
  assert (Htok : forall (m : gmap string SVal) a b,
             (<["user" := a]> (<["auth_token" := b]> m)) !! "auth_token"
             = Some b).
  { intros m a b. rewrite lookup_insert_ne by discriminate.
    apply lookup_insert_eq. }
  split; [rewrite Htok; now eexists |].
  split; [rewrite lookup_insert_eq; now eexists |].
  intros w2 Hsession Hfrom Huntil.
  unfold auth_session.is_authenticated.
  unfold bind at 1. unfold st.session_has at 1. rewrite Hsession.
  rewrite bool_decide_eq_true_2 by (rewrite Htok; now eexists).
  cbn [negb].
  unfold bind at 1. unfold st.session_get at 1. rewrite Hsession.
  rewrite Htok. cbn [auth_session.stored_token].
  unfold bind at 1.
  rewrite (verify_issued_token secret_key session_timeout hs256 email user
             (utcnow w) w2 Huser Hfrom Huntil).
  rewrite bool_decide_eq_false_2 by exact Hne.
  reflexivity.
Qed.

(** X21. An authenticated visitor who lacks a permission is stopped:
    [require_permission] shows the refusal naming the permission and
    ends the script, and changes nothing else. *)
Theorem require_permission_stops (permission email password : string)
  (submit : bool) (w w1 : World) (user : Dict) :
  auth_session.is_authenticated secret_key hs256 w = (Ok true, w1) ->
  st.session_user w1 = (Ok user, w1) ->
  auth.check_permission user permission = Ok false ->
  auth_session.require_permission secret_key session_timeout hs256
    permission email password submit w
  = (Raise StopException,
     mkWorld (frames w1) (session_state w1)
       (page w1
        ++ [StError ("Access Denied: You don't have '" +:+ permission
                     +:+ "' permission")])
       (audit_log w1) (utcnow w1)).
Proof.
  intros Hauth Huser Hperm.
  unfold auth_session.require_permission, auth_session.require_auth.
  unfold bind at 1. unfold bind at 1. rewrite Hauth.
  cbn [negb]. unfold ret at 1.
  unfold bind at 1. rewrite Huser.
  unfold bind at 1. unfold lift. rewrite Hperm.
  reflexivity.
Qed.

(** X22. The audit trail of a local login does not name the user: after
    any successful login the user context that [log_event] attaches to
    its records gives the address as [anonymous], because the record of
    an authorized user holds no [email] entry. *)
Theorem local_login_is_audited_as_anonymous (email password : string)
  (w : World) :
  auth.check_password email password = true ->
  exists context w',
    audit_logger.get_user_context
      (snd (auth.login_form secret_key session_timeout hs256 email password
              true w))
    = (Ok context, w')
    /\ user_email context = PStr "anonymous".
Proof.
  intros Hpw.
  destruct (accepted_user_is_known email password Hpw)
    as (user & Huser & _ & Hnoemail).
  destruct (login_form_success_run email password user w Hpw Huser)
    as [greeting Hrun].
  rewrite Hrun. cbn [snd].
  unfold audit_logger.get_user_context.
  unfold bind at 1. unfold st.session_user. unfold bind at 1.
  unfold st.session_get at 1. cbn [session_state].
  rewrite lookup_insert_eq.
  unfold ret at 1. unfold bind, st.session_get, datetime_utcnow, ret.
  eexists _, _. split; [reflexivity |].
  cbn [user_email]. unfold dict_get. now rewrite Hnoemail.
Qed.

End SessionLifetime.

Lemma expired_session_is_destroyed_witness :
  session_state
    (mkWorld (frames logged_in_demo) (session_state logged_in_demo)
             (page logged_in_demo) (audit_log logged_in_demo) 100)
  !! "auth_token"
  = Some (SPy (PJwt demo_token))
  /\ exists w',
       auth_session.is_authenticated "k" example_hs256
         (mkWorld (frames logged_in_demo) (session_state logged_in_demo)
                  (page logged_in_demo) (audit_log logged_in_demo) 100)
       = (Raise RerunException, w')
       /\ session_state w' !! "auth_token" = None
       /\ session_state w' !! "user" = None.
Proof.
  split; [reflexivity |].
  destruct (expired_session_is_destroyed "k" example_hs256 "HS256"
              demo_claims (example_hs256 "k" demo_claims) 10
              (mkWorld (frames logged_in_demo) (session_state logged_in_demo)
                       (page logged_in_demo) (audit_log logged_in_demo) 100)
              eq_refl eq_refl ltac:(cbn [utcnow]; lia))
    as (w' & msg & Hrun & _ & _ & H1 & H2 & _).
  exists w'. split; [exact Hrun |]. now split.
Defined.

Lemma login_then_authenticated_witness :
  auth.check_password "demo@redhat.com" "demo123" = true
  /\ exists w',
       auth.login_form "k" 60 example_hs256 "demo@redhat.com" "demo123" true
         (world_at 5)
       = (Raise RerunException, w')
       /\ fst (auth_session.is_authenticated "k" example_hs256
                 (mkWorld (frames w') (session_state w') (page w')
                          (audit_log w') 3604))
          = Ok true.
Proof.
  split; [reflexivity |].
  destruct (login_then_authenticated "k" 60 example_hs256 "demo@redhat.com"
              "demo123" (world_at 5) eq_refl)
    as (w' & Hrun & _ & _ & Hauth).
  exists w'. split; [exact Hrun |].
  apply Hauth; [reflexivity | cbn [utcnow world_at]; lia
               | cbn [utcnow world_at]; lia].
Defined.

Lemma require_permission_stops_witness :
  auth_session.is_authenticated "k" example_hs256 logged_in_demo
  = (Ok true, logged_in_demo)
  /\ st.session_user logged_in_demo = (Ok demo_user, logged_in_demo)
  /\ auth.check_permission demo_user "export_data" = Ok false
  /\ auth_session.require_permission "k" 60 example_hs256 "export_data"
       "demo@redhat.com" "demo123" false logged_in_demo
     = (Raise StopException,
        mkWorld [] (session_state logged_in_demo)
          [StError "Access Denied: You don't have 'export_data' permission"]
          [] 7).
Proof.
  assert (H1 : auth_session.is_authenticated "k" example_hs256 logged_in_demo
               = (Ok true, logged_in_demo)) by (vm_compute; reflexivity).
  split; [exact H1 |]. split; [reflexivity |]. split; [reflexivity |].
  exact (require_permission_stops "k" 60 example_hs256 "export_data"
           "demo@redhat.com" "demo123" false logged_in_demo logged_in_demo
           demo_user H1 eq_refl eq_refl).
Defined.

Lemma local_login_is_audited_as_anonymous_witness :
  auth.check_password "crizzo@redhat.com" "admin123" = true
  /\ exists context w',
       audit_logger.get_user_context
         (snd (auth.login_form "k" 60 example_hs256 "crizzo@redhat.com"
                 "admin123" true (world_at 5)))
       = (Ok context, w')
       /\ user_email context = PStr "anonymous".
Proof.
  split; [reflexivity |].
  exact (local_login_is_audited_as_anonymous "k" 60 example_hs256
           "crizzo@redhat.com" "admin123" (world_at 5) eq_refl).
Defined.

Lemma mask_employee_id_keeps_length_witness :
  (3 < String.length "E12345")%nat
  /\ data_security.mask_employee_id (VStr "E12345") = Ok (VStr "E1***5").
Proof.
  split; [simpl; lia |].
  destruct (mask_employee_id_keeps_length "E12345") as (s' & Hrun & _).
  vm_compute in Hrun. injection Hrun as <-. reflexivity.
Defined.

Lemma validated_parameters_are_clean_witness :
  markup_query !! "q" = Some (VStr "<b>ann</b>")
  /\ exists s',
       search.validate_search_parameters markup_query !! "q" = Some (VStr s')
       /\ (String.length s' <= 100)%nat
       /\ forall a, py.contains_char a s' = true ->
                    search.is_dangerous a = false.
Proof.
  split; [reflexivity |].
  exact (proj1 (proj2 (validated_parameters_are_clean markup_query "q"))
           "<b>ann</b>" eq_refl).
Defined.

(* ===================================================================== *)
(** * More on the federated session authenticator *)
(* ===================================================================== *)

Section FederatedSession.

Import rh_sso_auth.

Variable client_id client_secret redirect_uri : string.
Variable token_endpoint : TokenRequest -> HttpResult.
Variable userinfo_endpoint : PyVal -> HttpResult.

Lemma bind_ok {A B} (m : M A) (k : A -> M B) (w : World) (b : B)
  (w' : World) :
  bind m k w = (Ok b, w') ->
  exists a w1, m w = (Ok a, w1) /\ k a w1 = (Ok b, w').
Proof.
  unfold bind. destruct (m w) as [[a|e] w1]; [| discriminate].
  intros H. now exists a, w1.
Qed.

Lemma in_roles_or_groups_list name roles groups :
  in_roles_or_groups name roles (PList groups)
  = Ok (bool_decide (name ∈ roles ++ groups)).
Proof.
  unfold in_roles_or_groups, py_in.
  destruct (bool_decide (name ∈ roles)) eqn:Hr.
  - apply bool_decide_eq_true in Hr.
    rewrite bool_decide_eq_true_2; [reflexivity |].
    apply elem_of_app. now left.
  - apply bool_decide_eq_false in Hr. f_equal.
    apply bool_decide_ext. rewrite elem_of_app. tauto.
Qed.

(** X23. The role of a federated user is decided in a fixed order of
    precedence over the realm roles and the groups together: [admin]
    exactly when the admin name is among them, [manager] exactly when the
    manager name is and the admin name is not, [auditor] exactly when the
    auditor name is and the two others are not, [viewer] exactly when
    none of the three names is; there is no other role. *)
Theorem role_mapping_precedence (user_info : Dict) (claims : Claims)
  (groups : list string) :
  dict_get user_info "groups" (PList []) = PList groups ->
  let held := default [] (claim_realm_roles claims) ++ groups in
  exists role,
    map_user_roles user_info claims = Ok role
    /\ role ∈ ["admin"; "manager"; "auditor"; "viewer"]
    /\ (role = "admin" <-> "ldap-analytics-admin" ∈ held)
    /\ (role = "manager"
        <-> ("ldap-analytics-admin" ∉ held)
            /\ "ldap-analytics-manager" ∈ held)
    /\ (role = "auditor"
        <-> ("ldap-analytics-admin" ∉ held)
            /\ ("ldap-analytics-manager" ∉ held)
            /\ "ldap-analytics-auditor" ∈ held)
    /\ (role = "viewer"
        <-> ("ldap-analytics-admin" ∉ held)
            /\ ("ldap-analytics-manager" ∉ held)
            /\ ("ldap-analytics-auditor" ∉ held)).
Proof.
  intros Hg held. unfold map_user_roles. rewrite Hg.
  rewrite !in_roles_or_groups_list. fold held.
  destruct (bool_decide ("ldap-analytics-admin" ∈ held)) eqn:Ha.
  { apply bool_decide_eq_true in Ha.
    exists "admin". split; [reflexivity |]. split; [now left |].
    split; [tauto |].
    split; [split; [discriminate | tauto] |].
    split; [split; [discriminate | tauto] |].
    split; [discriminate | tauto]. }
  apply bool_decide_eq_false in Ha.
  destruct (bool_decide ("ldap-analytics-manager" ∈ held)) eqn:Hm.
  { apply bool_decide_eq_true in Hm.
    exists "manager". split; [reflexivity |].
    split; [right; now left |].
    split; [split; [discriminate | contradiction] |].
    split; [tauto |].
    split; [split; [discriminate | tauto] |].
    split; [discriminate | tauto]. }
  apply bool_decide_eq_false in Hm.
  destruct (bool_decide ("ldap-analytics-auditor" ∈ held)) eqn:Hu.
  { apply bool_decide_eq_true in Hu.
    exists "auditor". split; [reflexivity |].
    split; [right; right; now left |].
    split; [split; [discriminate | contradiction] |].
    split; [split; [discriminate | tauto] |].
    split; [tauto |].
    split; [discriminate | tauto]. }
  apply bool_decide_eq_false in Hu.
  exists "viewer". split; [reflexivity |].
  split; [right; right; right; now left |].
  split; [split; [discriminate | contradiction] |].
  split; [split; [discriminate | tauto] |].
  split; [split; [discriminate | tauto] |].
  tauto.
Qed.

(** X24. The identity token is bound to the login in flight by its nonce
    and by nothing else: with the stored nonce in its claims it is
    accepted whatever its algorithm and signature are, with any other
    nonce or none it is refused. *)
Theorem id_token_is_bound_by_nonce_only (alg : string) (claims : Claims)
  (signature : Z) (nonce : string) (w : World) :
  session_state w !! "oauth_nonce" = Some (SPy (PStr nonce)) ->
  (claim_nonce claims = Some nonce ->
   verify_jwt_token (PJwt (Jws alg claims signature)) w
   = (Ok (Some claims), w))
  /\ (claim_nonce claims <> Some nonce ->
      verify_jwt_token (PJwt (Jws alg claims signature)) w
      = (Ok None,
         mkWorld (frames w) (session_state w)
                 (page w ++ [StError "Invalid nonce in ID token"])
                 (audit_log w) (utcnow w))).
Proof.
  intros Hstored. unfold verify_jwt_token, bind, st.session_get.
  rewrite Hstored. unfold nonce_differs. split.
  - intros ->. now rewrite String.eqb_refl.
  - intros Hne. destruct (claim_nonce claims) as [n|]; [| reflexivity].
    destruct (String.eqb_spec n nonce) as [-> | Hn]; [congruence |].
    reflexivity.
Qed.

End FederatedSession.

Lemma role_mapping_precedence_witness :
  dict_get manager_and_admin_info "groups" (PList [])
  = PList ["ldap-analytics-manager"; "ldap-analytics-admin"]
  /\ rh_sso_auth.map_user_roles manager_and_admin_info example_id_claims
     = Ok "admin".
Proof.
  split; [reflexivity |].
  destruct (role_mapping_precedence manager_and_admin_info example_id_claims
              ["ldap-analytics-manager"; "ldap-analytics-admin"] eq_refl)
    as (role & Hrun & _ & Hadmin & _).
  rewrite Hrun. f_equal. apply Hadmin. right. now left.
Defined.

Lemma id_token_is_bound_by_nonce_only_witness :
  session_state pending_flow !! "oauth_nonce" = Some (SPy (PStr "nonce-1"))
  /\ claim_nonce example_id_claims = Some "nonce-1"
  /\ rh_sso_auth.verify_jwt_token (PJwt (Jws "none" example_id_claims 42))
       pending_flow
     = (Ok (Some example_id_claims), pending_flow).
Proof.
  split; [reflexivity |]. split; [reflexivity |].
  exact (proj1 (id_token_is_bound_by_nonce_only "none" example_id_claims 42
                  "nonce-1" pending_flow eq_refl)
           eq_refl).
Defined.

Section FederatedLogin.

Import rh_sso_auth.

Variable client_id client_secret redirect_uri : string.
Variable token_endpoint : TokenRequest -> HttpResult.
Variable userinfo_endpoint : PyVal -> HttpResult.

Lemma map_user_roles_closed user_info claims role :
  map_user_roles user_info claims = Ok role ->
  role ∈ ["admin"; "manager"; "auditor"; "viewer"].
Proof.
  unfold map_user_roles.
  destruct (in_roles_or_groups "ldap-analytics-admin" _ _) as [[|]|e];
    [intros [= <-]; now left | | discriminate].
  destruct (in_roles_or_groups "ldap-analytics-manager" _ _) as [[|]|e];
    [intros [= <-]; right; now left | | discriminate].
  destruct (in_roles_or_groups "ldap-analytics-auditor" _ _) as [[|]|e];
    [intros [= <-]; right; right; now left | | discriminate].
  intros [= <-]. right; right; right; now left.
Qed.

(** X25. The permissions of a federated session come from the role alone:
    when [create_user_session] returns, the session holds the role that
    the mapping gave and the permissions that the table lists for that
    role, whatever else the provider sent; for the roles [viewer] and
    [auditor] they do not include [export_data]. The world is left as it
    was. *)
Theorem session_permissions_follow_role (user_info : Dict)
  (claims : Claims) (tokens : Dict) (w : World) (session : Dict)
  (w' : World) :
  create_user_session user_info claims tokens w = (Ok session, w') ->
  w' = w
  /\ exists role,
       map_user_roles user_info claims = Ok role
       /\ role ∈ ["admin"; "manager"; "auditor"; "viewer"]
       /\ session !! "role" = Some (PStr role)
       /\ session !! "permissions"
          = Some (PList (data_security.assoc_get role [] permissions_map))
       /\ (role = "viewer" \/ role = "auditor" ->
           "export_data" ∉ data_security.assoc_get role [] permissions_map).
Proof.
  unfold create_user_session. intros H.
  apply bind_ok in H as (role & w1 & Hrole & H).
  unfold lift in Hrole. injection Hrole as Hrole <-.
  apply bind_ok in H as (now & w2 & Hnow & H).
  unfold datetime_utcnow in Hnow. injection Hnow as <- <-.
  apply bind_ok in H as (expires_in & w3 & Hexp & H).
  assert (w3 = w) as ->.
  { destruct (dict_get tokens "expires_in" (PInt 3600));
      try discriminate Hexp; now injection Hexp as _ <-. }
  unfold ret in H. injection H as <- <-.
  split; [reflexivity |]. exists role.
  split; [exact Hrole |].
  split; [now apply (map_user_roles_closed user_info claims) |].
  split; [rewrite !lookup_insert_ne by discriminate;
          apply lookup_insert_eq |].
  split; [rewrite !lookup_insert_ne by discriminate;
          apply lookup_insert_eq |].
  intros [-> | ->] Hin; simpl in Hin;
    repeat (apply elem_of_cons in Hin as [Hin | Hin]; [discriminate |]);
    now apply not_elem_of_nil in Hin.
Qed.

(** X26. A callback establishes a session only when the stored state is
    exactly the first character of the state parameter, and a callback
    that does establish one consumes the login in flight: whenever
    [handle_callback] returns a user, the state parameter is not empty,
    the stored state was the one-character text made of its first
    character, and the stored state, nonce and code verifier are gone
    from the session afterwards. *)
Theorem callback_session_needs_first_character
  (query_params : gmap string string) (w : World) (session : Dict)
  (w' : World) :
  handle_callback client_id client_secret redirect_uri token_endpoint
    userinfo_endpoint query_params w
  = (Ok (Some session), w') ->
  (exists a rest,
     query_params !! "state" = Some (String a rest)
     /\ session_state w !! "oauth_state"
        = Some (SPy (PStr (String a EmptyString))))
  /\ session_state w' !! "oauth_state" = None
  /\ session_state w' !! "oauth_nonce" = None
  /\ session_state w' !! "oauth_code_verifier" = None.
Proof.
  unfold handle_callback. intros H.
  destruct (bool_decide (is_Some (query_params !! "code"))
            && bool_decide (is_Some (query_params !! "state"))).
  - apply bind_ok in H as (code & w1 & Hcode & H).
    unfold lift in Hcode. injection Hcode as Hcode <-.
    apply bind_ok in H as (state & w2 & Hstate & H).
    unfold lift in Hstate. injection Hstate as Hstate <-.
    apply bind_ok in H as (tokens & w3 & Htokens & H).
    destruct tokens as [tokens|]; [| discriminate H].
    split.
    { unfold first_character in Hstate.
      destruct (query_params !! "state") as [text|]; [| discriminate].
      destruct text as [|a rest]; [discriminate |].
      injection Hstate as <-. exists a, rest. split; [reflexivity |].
      unfold exchange_code_for_tokens, bind, st.session_get in Htokens.
      destruct (bool_decide (session_state w !! "oauth_state"
                             = Some (SPy (PStr (String a EmptyString)))))
        eqn:Hcheck; [| discriminate Htokens].
      now apply bool_decide_eq_true in Hcheck. }
    destruct (bool_decide (tokens = ∅)); [discriminate H |].
    apply bind_ok in H as (access_token & w4 & _ & H).
    apply bind_ok in H as (user_info & w5 & _ & H).
    destruct user_info as [user_info|]; [| discriminate H].
    destruct (bool_decide (user_info = ∅)); [discriminate H |].
    apply bind_ok in H as (id_token & w6 & _ & H).
    apply bind_ok in H as (id_token_claims & w7 & _ & H).
    destruct id_token_claims as [id_token_claims|]; [| discriminate H].
    destruct (bool_decide (id_token_claims = no_claims)); [discriminate H |].
    apply bind_ok in H as (user_session & w8 & _ & H).
    apply bind_ok in H as ([] & w9 & Hclear & H).
    unfold ret in H. injection H as _ <-.
    cbn [for_each] in Hclear.
    apply bind_ok in Hclear as ([] & wa & H1 & Hclear).
    apply bind_ok in Hclear as ([] & wb & H2 & Hclear).
    apply bind_ok in Hclear as ([] & wc & H3 & Hclear).
    unfold ret in Hclear. injection Hclear as <-.
    rewrite clear_key_run in H1, H2, H3.
    injection H1 as <-. injection H2 as <-. injection H3 as <-.
    cbn [session_state]. split; [| split].
    + rewrite !lookup_delete_ne by discriminate. apply lookup_delete_eq.
    + rewrite lookup_delete_ne by discriminate. apply lookup_delete_eq.
    + apply lookup_delete_eq.
  - destruct (bool_decide (is_Some (query_params !! "error")));
      [| discriminate H].
    apply bind_ok in H as (error & w1 & _ & H).
    apply bind_ok in H as (description & w2 & _ & H).
    apply bind_ok in H as ([] & w3 & _ & H).
    discriminate H.
Qed.

End FederatedLogin.

Lemma session_permissions_follow_role_witness :
  exists session,
    rh_sso_auth.create_user_session manager_and_admin_info example_id_claims
      ∅ (world_at 5)
    = (Ok session, world_at 5)
    /\ exists role,
         rh_sso_auth.map_user_roles manager_and_admin_info example_id_claims
         = Ok role
         /\ session !! "role" = Some (PStr role)
         /\ session !! "permissions"
            = Some (PList (data_security.assoc_get role []
                             rh_sso_auth.permissions_map)).
Proof.
  assert (Hrun : exists session,
             rh_sso_auth.create_user_session manager_and_admin_info
               example_id_claims ∅ (world_at 5)
             = (Ok session, world_at 5))
    by (eexists; vm_compute; reflexivity).
  destruct Hrun as [session Hrun]. exists session. split; [exact Hrun |].
  destruct (session_permissions_follow_role manager_and_admin_info
              example_id_claims ∅ (world_at 5) session (world_at 5) Hrun)
    as (_ & role & Hrole & _ & Hr & Hp & _).
  exists role. split; [exact Hrole |]. split; [exact Hr | exact Hp].
Defined.

Lemma callback_session_needs_first_character_witness :
  exists session w',
    rh_sso_auth.handle_callback "client" "secret" "uri"
      example_token_endpoint example_userinfo_endpoint
      (callback "code-1" "state-1") one_character_flow
    = (Ok (Some session), w')
    /\ session_state one_character_flow !! "oauth_state"
       = Some (SPy (PStr "s"))
    /\ session_state w' !! "oauth_state" = None
    /\ session_state w' !! "oauth_nonce" = None
    /\ session_state w' !! "oauth_code_verifier" = None.
Proof.
  assert (Hrun : exists session w',
             rh_sso_auth.handle_callback "client" "secret" "uri"
               example_token_endpoint example_userinfo_endpoint
               (callback "code-1" "state-1") one_character_flow
             = (Ok (Some session), w'))
    by (eexists _, _; vm_compute; reflexivity).
  destruct Hrun as (session & w' & Hrun). exists session, w'.
  split; [exact Hrun |]. split; [reflexivity |].
  exact (proj2 (callback_session_needs_first_character "client" "secret"
                  "uri" example_token_endpoint example_userinfo_endpoint
                  (callback "code-1" "state-1") one_character_flow
                  session w' Hrun)).
Defined.
